(** * The Nishith Desai Associates engine (searx/engines/nishithdesai.py)

    A shallow embedding of the engine's three entry points, [request],
    [response] and [fetch_traits], and of its helper [eval_xpath], with the
    properties of the engine's specification stated and proved over it.

    Python's [str] is modelled by [string]: one [ascii] is one code point in
    the range 0..255, which is where [str.strip], [str.lower], [len] and the
    regular expression class [\s] are given their exact Python meaning below.
    Exceptions are modelled by [option]: [None] stands for a raised
    exception, caught where the source catches it. *)

From Stdlib Require Import ZArith NArith String Ascii List Bool Lia.
From Stdlib Require Import DecimalString DecimalZ DecimalPos.
From stdpp Require Import gmap strings.
Import ListNotations.

Set Warnings "-register-all".

(* stdpp stops [simpl] at string concatenation; the proofs below compute
   through it. *)
#[local] Arguments String.append !_ _ : simpl nomatch.
#[local] Arguments Ascii.eqb : simpl never.

Local Open Scope string_scope.
Local Open Scope list_scope.

(** ** Python string primitives *)

Module Py.

(** [str.isspace] on one code point; also the class [\s] of [re] for [str]
    patterns.  Below 256 the white space code points are 9..13, 28..32,
    133 and 160. *)
Definition isspace (c : ascii) : bool :=
  let n := N_of_ascii c in
  ((9 <=? n) && (n <=? 13) || (28 <=? n) && (n <=? 32) || (n =? 133) || (n =? 160))%N.

Definition is_empty (s : string) : bool :=
  match s with EmptyString => true | String _ _ => false end.

(** [s.lstrip()] *)
Fixpoint lstrip (s : string) : string :=
  match s with
  | EmptyString => EmptyString
  | String c r => if isspace c then lstrip r else s
  end.

(** [s.rstrip()] *)
Fixpoint rstrip (s : string) : string :=
  match s with
  | EmptyString => EmptyString
  | String c r =>
      let r' := rstrip r in
      if isspace c && is_empty r' then EmptyString else String c r'
  end.

(** [s.strip()] *)
Definition strip (s : string) : string := rstrip (lstrip s).

(** [s.startswith(p)] *)
Fixpoint startswith (p s : string) : bool :=
  match p, s with
  | EmptyString, _ => true
  | String a p', String b s' => Ascii.eqb a b && startswith p' s'
  | String _ _, EmptyString => false
  end.

(** [sub in s] *)
Fixpoint contains (sub s : string) : bool :=
  startswith sub s ||
  match s with
  | EmptyString => false
  | String _ r => contains sub r
  end.

(** [s.endswith(p)] *)
Fixpoint endswith (p s : string) : bool :=
  String.eqb p s ||
  match s with
  | EmptyString => false
  | String _ r => endswith p r
  end.

(** [str.lower] on one code point: A..Z and the Latin-1 capitals 192..222
    (without the multiplication sign 215) move up by 32. *)
Definition lower_char (c : ascii) : ascii :=
  let n := N_of_ascii c in
  if ((65 <=? n) && (n <=? 90) || (192 <=? n) && (n <=? 222) && negb (n =? 215))%N
  then ascii_of_N (n + 32) else c.

(** [s.lower()] *)
Fixpoint lower (s : string) : string :=
  match s with
  | EmptyString => EmptyString
  | String c r => String (lower_char c) (lower r)
  end.

(** [s[:n]] *)
Fixpoint take (n : nat) (s : string) : string :=
  match n, s with
  | S n', String c r => String c (take n' r)
  | _, _ => EmptyString
  end.

(** [sep.join(l)] *)
Fixpoint join (sep : string) (l : list string) : string :=
  match l with
  | [] => EmptyString
  | [x] => x
  | x :: rest => x +:+ sep +:+ join sep rest
  end.

(** [re.sub(r'\s+', ' ', s)]: every maximal run of white space becomes one
    space.  [in_run] tells that the previous code point was white space. *)
Fixpoint sub_ws (in_run : bool) (s : string) : string :=
  match s with
  | EmptyString => EmptyString
  | String c r =>
      if isspace c
      then (if in_run then sub_ws true r else String " " (sub_ws true r))
      else String c (sub_ws false r)
  end.

Definition re_sub_ws (s : string) : string := sub_ws false s.

(** [str(n)] for an [int] *)
Definition str_of_int (n : Z) : string := NilZero.string_of_int (Z.to_int n).

End Py.

(** ** urllib.parse: percent encoding *)

Module Url.

(** Upper case hexadecimal digit of a value below 16. *)
Definition hex_digit (n : N) : ascii :=
  if (n <? 10)%N then ascii_of_N (48 + n) else ascii_of_N (55 + n).

(** The code points [quote] never escapes: letters, digits and [_.-~]. *)
Definition always_safe (c : ascii) : bool :=
  let n := N_of_ascii c in
  ((65 <=? n) && (n <=? 90) || (97 <=? n) && (n <=? 122) || (48 <=? n) && (n <=? 57)
   || (n =? 95) || (n =? 46) || (n =? 45) || (n =? 126))%N.

(** [c.encode('utf-8')] for one code point below 256. *)
Definition utf8_char (c : ascii) : string :=
  let n := N_of_ascii c in
  if (n <? 128)%N then String c EmptyString
  else String (ascii_of_N (192 + n / 64))
         (String (ascii_of_N (128 + n mod 64)) EmptyString).

(** [s.encode('utf-8')] *)
Fixpoint utf8_encode (s : string) : string :=
  match s with
  | EmptyString => EmptyString
  | String c r => utf8_char c +:+ utf8_encode r
  end.

(** What [quote_plus] with [safe=''] writes for one byte: a safe byte as it
    is, a space as [+], anything else as [%XX]. *)
Definition quote_byte (b : ascii) : string :=
  if always_safe b then String b EmptyString
  else if Ascii.eqb b " " then "+"
  else let n := N_of_ascii b in
       String "%" (String (hex_digit (n / 16)) (String (hex_digit (n mod 16)) EmptyString)).

Fixpoint quote_bytes (bs : string) : string :=
  match bs with
  | EmptyString => EmptyString
  | String b r => quote_byte b +:+ quote_bytes r
  end.

(** [quote_plus(s, safe='')] *)
Definition quote_plus (s : string) : string := quote_bytes (utf8_encode s).

Definition encode_pair (kv : string * string) : string :=
  quote_plus (fst kv) +:+ "=" +:+ quote_plus (snd kv).

(** [urlencode(d)] for a dict whose items, in insertion order, are [l]; the
    values are already passed through [str]. *)
Definition urlencode (l : list (string * string)) : string :=
  Py.join "&" (map encode_pair l).

(** *** The decoding side, used to state what a correct encoding is *)

Definition unhex (c : ascii) : option N :=
  let n := N_of_ascii c in
  if ((48 <=? n) && (n <=? 57))%N then Some (n - 48)%N
  else if ((65 <=? n) && (n <=? 70))%N then Some (n - 55)%N
  else if ((97 <=? n) && (n <=? 102))%N then Some (n - 87)%N
  else None.

(** [unquote_plus] down to bytes: [+] is a space, [%XX] is the byte XX. *)
Fixpoint unquote_plus (s : string) : string :=
  match s with
  | EmptyString => EmptyString
  | String c t =>
      if Ascii.eqb c "+" then String " " (unquote_plus t)
      else if Ascii.eqb c "%" then
        match t with
        | String h1 (String h2 r) =>
            match unhex h1, unhex h2 with
            | Some a, Some b => String (ascii_of_N (16 * a + b)) (unquote_plus r)
            | _, _ => String c (unquote_plus t)
            end
        | _ => String c (unquote_plus t)
        end
      else String c (unquote_plus t)
  end.

(** [bs.decode('utf-8')] for code points below 256; [None] on anything
    else. *)
Fixpoint utf8_decode (bs : string) : option string :=
  match bs with
  | EmptyString => Some EmptyString
  | String b t =>
      let n := N_of_ascii b in
      if (n <? 128)%N then option_map (String b) (utf8_decode t)
      else if ((n =? 194) || (n =? 195))%N then
        match t with
        | String b2 r =>
            let m := N_of_ascii b2 in
            if ((128 <=? m) && (m <? 192))%N
            then option_map (String (ascii_of_N ((n - 192) * 64 + (m - 128)))) (utf8_decode r)
            else None
        | EmptyString => None
        end
      else None
  end.

Definition decode_component (s : string) : option string :=
  utf8_decode (unquote_plus s).

(** [s.split(sep)] for a one character separator. *)
Fixpoint split_on (sep : ascii) (s : string) : list string :=
  match s with
  | EmptyString => [EmptyString]
  | String c r =>
      if Ascii.eqb c sep then EmptyString :: split_on sep r
      else match split_on sep r with
           | h :: t => String c h :: t
           | [] => [String c EmptyString]
           end
  end.

(** [s.partition(sep)] without the separator. *)
Fixpoint partition_on (sep : ascii) (s : string) : string * string :=
  match s with
  | EmptyString => (EmptyString, EmptyString)
  | String c r =>
      if Ascii.eqb c sep then (EmptyString, r)
      else let '(k, v) := partition_on sep r in (String c k, v)
  end.

Definition decode_field (f : string) : option (string * string) :=
  let '(k, v) := partition_on "=" f in
  match decode_component k, decode_component v with
  | Some k', Some v' => Some (k', v')
  | _, _ => None
  end.

Fixpoint decode_fields (fs : list string) : option (list (string * string)) :=
  match fs with
  | [] => Some []
  | f :: rest =>
      match decode_field f, decode_fields rest with
      | Some kv, Some l => Some (kv :: l)
      | _, _ => None
      end
  end.

(** [parse_qsl(qs, keep_blank_values=True)]: the list of decoded
    (name, value) pairs of a query string. *)
Definition parse_qsl (qs : string) : option (list (string * string)) :=
  if Py.is_empty qs then Some [] else decode_fields (split_on "&" qs).

(** *** What an encoded query string is made of *)

Fixpoint all_chars (P : ascii -> bool) (s : string) : bool :=
  match s with
  | EmptyString => true
  | String c r => P c && all_chars P r
  end.

(** The code points [quote_plus] writes: the safe ones, [%] and [+]. *)
Definition quoted_char (c : ascii) : bool :=
  always_safe c || Ascii.eqb c "%" || Ascii.eqb c "+".

(** The code points of an encoded query string: those, [&] and [=]. *)
Definition query_char (c : ascii) : bool :=
  quoted_char c || Ascii.eqb c "&" || Ascii.eqb c "=".

Definition is_not (sep : ascii) (c : ascii) : bool := negb (Ascii.eqb c sep).

End Url.

(** ** Module level configuration *)

Definition base_url : string := "https://www.nishithdesai.com".
Definition search_url : string := base_url +:+ "/Search.html".

Definition headers : list (string * string) :=
  [ ("User-Agent", "Mozilla/5.0 (Windows NT 10.0; Win64; x64) AppleWebKit/537.36 (KHTML, like Gecko) Chrome/120.0.0.0 Safari/537.36");
    ("Accept", "text/html,application/xhtml+xml,application/xml;q=0.9,image/webp,*/*;q=0.8");
    ("Accept-Language", "en-US,en;q=0.5");
    ("Accept-Encoding", "gzip, deflate");
    ("DNT", "1");
    ("Connection", "keep-alive");
    ("Upgrade-Insecure-Requests", "1") ].

(** ** request *)

(** The request descriptor the host passes in and gets back: the keys of
    the [params] dict that [request] reads or writes.  [None] is a key that
    is not set. *)
Record request_params := {
  pageno : option Z;
  p_url : option string;
  p_method : option string;
  p_headers : option (list (string * string))
}.

(** [search_params], the dict built by [request], as its items in insertion
    order with the values as [urlencode] stringifies them. *)
Definition search_params (query : string) (params : request_params) : list (string * string) :=
  [ ("q", query);
    ("searchtext", query);
    ("page", Py.str_of_int (default 1%Z (pageno params)));
    ("results", Py.str_of_int 20) ].

Definition request (query : string) (params : request_params) : request_params :=
  let query := Py.strip query in
  {| pageno := pageno params;
     p_url := Some (search_url +:+ "?" +:+ Url.urlencode (search_params query params));
     p_method := Some "GET";
     p_headers := Some headers |}.

(** ** The host libraries: lxml and searx.utils *)

(** What an XPath result list holds: elements, or strings (text nodes and
    attribute values). *)
Inductive item (element : Type) :=
  | IElem (e : element)
  | IStr (s : string).
Arguments IElem {element} e.
Arguments IStr {element} s.

(** What [element.xpath(expr)] returns: a list for a node-set expression, a
    string, a number or a boolean for the others.  The engine only tests a
    number for being zero. *)
Inductive xvalue (element : Type) :=
  | XList (l : list (item element))
  | XStr (s : string)
  | XNum (z : Z)
  | XBool (b : bool).
Arguments XList {element} l.
Arguments XStr {element} s.
Arguments XNum {element} z.
Arguments XBool {element} b.

Definition is_list {element : Type} (v : xvalue element) : bool :=
  match v with XList _ => true | _ => false end.

(** The functions the engine imports.  An outer [None] is a raised
    exception.
    - [fromstring]: [lxml.html.fromstring], the document of an HTML text;
    - [xpath]: the method [element.xpath];
    - [eval_xpath_getindex el expr i]: [searx.utils.eval_xpath_getindex]
      with default [None]; the inner [None] is that default;
    - [extract_text]: [searx.utils.extract_text], the visible text. *)
Class Host (element : Type) := {
  fromstring : string -> option element;
  xpath : element -> string -> option (xvalue element);
  eval_xpath_getindex : item element -> string -> nat -> option (option (item element));
  extract_text : item element -> option (option string)
}.

(** Modelled from the spec: the result records and the result list of
    [searx.result_types], which are not part of the engine's file.  A
    ResultSet is an ordered sequence of records, a record is a LinkResult or
    a FileResult; [res.add] appends and [res.results] is the sequence. *)
Inductive record :=
  | Link (url title content : string)
  | File (url title content template : string).

Definition record_url (r : record) : string :=
  match r with Link u _ _ => u | File u _ _ _ => u end.
Definition record_title (r : record) : string :=
  match r with Link _ t _ => t | File _ t _ _ => t end.
Definition record_content (r : record) : string :=
  match r with Link _ _ c => c | File _ _ c _ => c end.
Definition is_file (r : record) : bool :=
  match r with Link _ _ _ => false | File _ _ _ _ => true end.

Definition EngineResults := list record.
Definition add (res : EngineResults) (r : record) : EngineResults := res ++ [r].

(** ** Selectors of [response] *)

Definition dq : string := String "034"%char EmptyString.

(** [//div[contains(@class, "v")]] *)
Definition div_class_contains (v : string) : string :=
  "//div[contains(@class, " +:+ dq +:+ v +:+ dq +:+ ")]".

(** [.//tag[@class="v"]/text()] *)
Definition text_of_classed (tag v : string) : string :=
  ".//" +:+ tag +:+ "[@class=" +:+ dq +:+ v +:+ dq +:+ "]/text()".

Definition result_selectors : list string :=
  [ div_class_contains "search-result";
    div_class_contains "result";
    div_class_contains "article";
    div_class_contains "hotline";
    div_class_contains "news";
    div_class_contains "content-item";
    "//article";
    div_class_contains "list-item" ].

(** [//a[contains(@href, "/")]] *)
Definition link_selector : string := "//a[contains(@href, " +:+ dq +:+ "/" +:+ dq +:+ ")]".

Definition title_selectors : list string :=
  [ ".//h1/text()"; ".//h2/text()"; ".//h3/text()"; ".//h4/text()";
    ".//a/text()"; ".//strong/text()";
    text_of_classed "span" "title"; text_of_classed "div" "title" ].

Definition url_selectors : list string := [ ".//a/@href"; ".//@href" ].

Definition content_selectors : list string :=
  [ ".//p/text()";
    text_of_classed "div" "content";
    text_of_classed "div" "description";
    text_of_classed "div" "excerpt";
    text_of_classed "span" "snippet";
    ".//text()" ].

(** ** Pure steps of [response] *)

(** URL normalisation, the same in both places of the source. *)
Definition normalize_url (url : string) : string :=
  if Py.startswith "/" url then base_url +:+ url
  else if negb (Py.startswith "http" url) then base_url +:+ "/" +:+ url
  else url.

(** Clean up of the content: white space runs collapsed, trimmed, cut to
    297 code points and three dots when longer than 300. *)
Definition truncate (content : string) : string :=
  if (300 <? String.length content)%nat then Py.take 297 content +:+ "..." else content.

Definition clean_content (content : string) : string :=
  truncate (Py.strip (Py.re_sub_ws content)).

Definition formatted_title (content_type title : string) : string :=
  "[" +:+ content_type +:+ "] " +:+ title.

(** The content type branch: the record a candidate with this URL, title
    and content adds. *)
Definition classify (url title content : string) : record :=
  let url_lower := Py.lower url in
  if Py.contains "hotline" url_lower then
    Link url (formatted_title "Legal Hotline" title) content
  else if Py.contains "research" url_lower || Py.contains "article" url_lower then
    Link url (formatted_title "Research Article" title) content
  else if Py.contains "news" url_lower then
    Link url (formatted_title "News" title) content
  else if Py.contains ".pdf" url_lower then
    File url title content "files.html"
  else
    Link url (formatted_title "Legal Content" title) content.

Definition fallback_content : string := "Content from Nishith Desai Associates".

(** The non-empty trimmed fragments of a list of texts, as the list
    comprehension of the source filters them. *)
Definition nonempty_stripped (texts : list string) : list string :=
  List.filter (fun t => negb (Py.is_empty t)) (map Py.strip texts).

(** ** Notions of the specification *)

(** Absolute URL: the scheme is http or https. *)
Definition is_absolute (url : string) : bool :=
  Py.startswith "http://" url || Py.startswith "https://" url.

(** White space is collapsed: every white space code point is a space and
    no two of them are adjacent.  [after_space] tells that the previous
    code point was one. *)
Fixpoint collapsed (after_space : bool) (s : string) : bool :=
  match s with
  | EmptyString => true
  | String c r =>
      if Py.isspace c
      then Ascii.eqb c " " && negb after_space && collapsed true r
      else collapsed false r
  end.

(** The words of the specification: the first 3 non-empty trimmed
    fragments, joined with a single space. *)
Definition first_three_nonempty (texts : list string) : string :=
  Py.join " " (firstn 3 (nonempty_stripped texts)).

(** ** The engine over a host *)

Section Engine.

Context {element : Type} `{Host element}.

Local Abbreviation item := (item element).
Local Abbreviation xvalue := (xvalue element).

(** *** What Python does with an XPath value *)

(** The code points of a string as one-character strings: what iterating
    over or indexing a [str] gives. *)
Definition chars (s : string) : list item :=
  map (fun c => IStr (String c EmptyString)) (list_ascii_of_string s).

(** [bool(v)] *)
Definition truthy (v : xvalue) : bool :=
  match v with
  | XList l => negb (length l =? 0)%nat
  | XStr s => negb (Py.is_empty s)
  | XNum z => negb (z =? 0)%Z
  | XBool b => b
  end.

(** [for x in v]: the items, or a TypeError for a number or a boolean. *)
Definition iter (v : xvalue) : option (list item) :=
  match v with
  | XList l => Some l
  | XStr s => Some (chars s)
  | XNum _ | XBool _ => None
  end.

(** [v[0]]: IndexError on an empty sequence, TypeError on a number or a
    boolean. *)
Definition index0 (v : xvalue) : option item :=
  l ← iter v; head l.

(** [v[:3]], as the items it holds. *)
Definition first3 (v : xvalue) : option (list item) :=
  l ← iter v; Some (firstn 3 l).

(** [x.strip()]: an element has no such method (AttributeError). *)
Definition item_strip (x : item) : option string :=
  match x with
  | IStr s => Some (Py.strip s)
  | IElem _ => None
  end.

(** *** eval_xpath *)

(** The helper of the source: the value of [element.xpath(xpath_expr)], or
    the empty list when that raises.  Called on a string instead of an
    element, the attribute lookup raises and the result is the empty list
    as well. *)
Definition eval_xpath (el : item) (xpath_expr : string) : xvalue :=
  match el with
  | IElem e =>
      match xpath e xpath_expr with
      | Some v => v
      | None => XList []
      end
  | IStr _ => XList []
  end.

(** The selector cascades of [response]: the value of the first selector
    whose value is truthy, [None] when there is none. *)
Fixpoint select_first (el : item) (selectors : list string) : option xvalue :=
  match selectors with
  | [] => None
  | sel :: rest =>
      let v := eval_xpath el sel in
      if truthy v then Some v else select_first el rest
  end.

(** *** One candidate of the structured tier

    In the functions of a candidate, [None] means that the candidate adds
    nothing: the source executes [continue], or an exception reaches the
    handler inside the loop, which continues as well. *)

(** The title as the cascade leaves it: [Some None] is Python's [None] (no
    selector matched), the outer [None] an exception. *)
Definition title_text (result : item) : option (option string) :=
  match select_first result title_selectors with
  | None => Some None
  | Some title_elements =>
      x ← index0 title_elements;
      title ← item_strip x;
      Some (Some title)
  end.

(** [not title or len(title) < 5] *)
Definition title_rejected (title : option string) : bool :=
  match title with
  | None => true
  | Some t => Py.is_empty t || (String.length t <? 5)%nat
  end.

Definition extract_title (result : item) : option string :=
  title ← title_text result;
  if title_rejected title then None else title.

(** The URL before normalisation. *)
Definition find_url (result : item) : option string :=
  match select_first result url_selectors with
  | None => None
  | Some url_elements =>
      x ← index0 url_elements;
      match x with
      | IStr url => if Py.is_empty url then None else Some url
      | IElem _ => None
      end
  end.

Definition extract_url (result : item) : option string :=
  url ← find_url result;
  Some (normalize_url url).

(** The content before the clean up. *)
Definition raw_content (result : item) : option string :=
  match select_first result content_selectors with
  | None => Some EmptyString
  | Some content_elements =>
      texts ← first3 content_elements;
      stripped ← mapM item_strip texts;
      Some (Py.join " " (List.filter (fun t => negb (Py.is_empty t)) stripped))
  end.

Definition extract_content (result : item) : option string :=
  content ← raw_content result;
  Some (clean_content content).

Definition candidate (result : item) : option record :=
  title ← extract_title result;
  url ← extract_url result;
  content ← extract_content result;
  Some (classify url title content).

(** [for result in results: ...] *)
Fixpoint structured_loop (results : list item) (res : EngineResults) : EngineResults :=
  match results with
  | [] => res
  | result :: rest =>
      match candidate result with
      | Some r => structured_loop rest (add res r)
      | None => structured_loop rest res
      end
  end.

(** *** One link of the last resort tier *)

Definition href_refused (href : string) : bool :=
  Py.startswith "#" href || Py.startswith "javascript:" href || Py.startswith "mailto:" href.

Definition fallback_link (link : item) : option record :=
  href ← eval_xpath_getindex link "./@href" 0;
  link_text ← extract_text link;
  match href, link_text with
  | Some (IStr href), Some link_text =>
      if negb (Py.is_empty href) && negb (Py.is_empty link_text)
         && (10 <? String.length (Py.strip link_text))%nat
         && negb (href_refused href)
      then Some (Link (normalize_url href) (Py.strip link_text) fallback_content)
      else None
  | _, _ => None
  end.

(** [for link in all_links: ...], with its [break] at ten results. *)
Fixpoint fallback_loop (all_links : list item) (res : EngineResults) : EngineResults :=
  match all_links with
  | [] => res
  | link :: rest =>
      match fallback_link link with
      | Some r =>
          let res := add res r in
          if (10 <=? length res)%nat then res else fallback_loop rest res
      | None => fallback_loop rest res
      end
  end.

(** *** response *)

(** The candidate containers: the value of the first container selector
    that matches, else of the link selector. *)
Definition containers (dom : element) : xvalue :=
  match select_first (IElem dom) result_selectors with
  | Some results => results
  | None => eval_xpath (IElem dom) link_selector
  end.

(** The last resort tier, the body of [if len(res.results) == 0].  An
    exception that leaves a loop header reaches the outer handler and the
    list is returned as it is at that point. *)
Definition last_resort (dom : element) (res : EngineResults) : EngineResults :=
  match iter (eval_xpath (IElem dom) "//a[@href]") with
  | None => res
  | Some all_links => fallback_loop all_links res
  end.

(** The body of the outer [try], on a parsed document and the result list
    so far. *)
Definition parse_document (dom : element) (res : EngineResults) : EngineResults :=
  match iter (containers dom) with
  | None => res
  | Some results =>
      let res := structured_loop results res in
      if (length res =? 0)%nat then last_resort dom res else res
  end.

(** [response(resp)] on [resp.text]. *)
Definition response (text : string) : EngineResults :=
  let res : EngineResults := [] in
  match fromstring text with
  | None => res
  | Some dom => parse_document dom res
  end.

(** *** Notions used to state the properties *)

(** A selector that does not match. *)
Definition falsy (el : item) (sel : string) : Prop := truthy (eval_xpath el sel) = false.

(** Where a record of [response] comes from. *)
Definition from_structured (text : string) (x : item) (r : record) : Prop :=
  exists dom results,
    fromstring text = Some dom /\ iter (containers dom) = Some results /\
    In x results /\ candidate x = Some r.

Definition from_last_resort (text : string) (link : item) (r : record) : Prop :=
  exists dom all_links,
    fromstring text = Some dom /\
    iter (eval_xpath (IElem dom) "//a[@href]") = Some all_links /\
    In link all_links /\ fallback_link link = Some r.

(** Some container selector of the structured tier matches. *)
Definition structured_match (dom : element) : Prop :=
  exists sel, In sel result_selectors /\ truthy (eval_xpath (IElem dom) sel) = true.

End Engine.

(** ** fetch_traits *)

(** Modelled from the spec: the traits object of [searx.enginelib.traits],
    which is not part of the engine's file, with the three parts the engine
    sets: a locale tag, a language mapping and a region mapping. *)
Record EngineTraits := {
  all_locale : option string;
  languages : gmap string string;
  regions : gmap string string
}.

Definition fetch_traits (engine_traits : EngineTraits) : EngineTraits :=
  {| all_locale := Some "en-IN";
     languages := <["en" := "English"]> (languages engine_traits);
     regions := <["US" := "United States"]> (<["IN" := "India"]> (regions engine_traits)) |}.

(** A traits object as the host creates it. *)
Definition fresh_traits : EngineTraits :=
  {| all_locale := None; languages := ∅; regions := ∅ |}.

(** ** A document model for the host

    An instance of [Host] over HTML trees, used to run the engine on
    concrete documents.  It evaluates the XPath expressions of the engine. *)

Module Lxml.

Inductive node :=
  | Text (s : string)
  | Element (tag : string) (attrs : list (string * string)) (children : list node).

Definition children_of (n : node) : list node :=
  match n with Text _ => [] | Element _ _ cs => cs end.

(** The element and its descendant elements, in document order. *)
Fixpoint elements (n : node) : list node :=
  match n with
  | Text _ => []
  | Element _ _ cs => n :: List.flat_map elements cs
  end.

Definition descendants (n : node) : list node :=
  List.flat_map elements (children_of n).

(** The text nodes below a node, in document order. *)
Fixpoint texts (n : node) : list string :=
  match n with
  | Text s => [s]
  | Element _ _ cs => List.flat_map texts cs
  end.

(** The text nodes that are children of an element. *)
Definition child_texts (n : node) : list string :=
  List.flat_map (fun c => match c with Text s => [s] | Element _ _ _ => [] end) (children_of n).

Fixpoint get_attr (name : string) (attrs : list (string * string)) : option string :=
  match attrs with
  | [] => None
  | (k, v) :: rest => if String.eqb k name then Some v else get_attr name rest
  end.

Definition attr (name : string) (n : node) : option string :=
  match n with Text _ => None | Element _ a _ => get_attr name a end.

Definition has_tag (tag : string) (n : node) : bool :=
  match n with Text _ => false | Element t _ _ => String.eqb t tag end.

(** The predicates in brackets. *)
Inductive pred :=
  | Any
  | HasAttr (a : string)
  | AttrEq (a v : string)
  | AttrContains (a v : string).

Definition holds (p : pred) (n : node) : bool :=
  match p with
  | Any => true
  | HasAttr a => match attr a n with Some _ => true | None => false end
  | AttrEq a v => match attr a n with Some w => String.eqb w v | None => false end
  | AttrContains a v => match attr a n with Some w => Py.contains v w | None => false end
  end.

(** The shapes of expression the engine uses, and a counting one. *)
Inductive expr :=
  | Elems (tag : string) (p : pred)
  | DescText (tag : string) (p : pred)
  | AllText
  | DescAttr (tag a : string)
  | AnyAttr (a : string)
  | SelfAttr (a : string)
  | Count (tag : string).

Definition matching (tag : string) (p : pred) (ns : list node) : list node :=
  List.filter (fun n => has_tag tag n && holds p n) ns.

Definition attr_values (a : string) (ns : list node) : list string :=
  List.flat_map (fun n => match attr a n with Some v => [v] | None => [] end) ns.

Definition strings (l : list string) : xvalue node := XList (map IStr l).

Definition eval (e : expr) (n : node) : xvalue node :=
  match e with
  | Elems tag p => XList (map IElem (matching tag p (elements n)))
  | DescText tag p => strings (List.flat_map child_texts (matching tag p (descendants n)))
  | AllText => strings (texts n)
  | DescAttr tag a => strings (attr_values a (matching tag Any (descendants n)))
  | AnyAttr a => strings (attr_values a (elements n))
  | SelfAttr a => strings (attr_values a [n])
  | Count tag => XNum (Z.of_nat (length (matching tag Any (elements n))))
  end.

(** The expressions by their text.  [//...] is evaluated on the root of the
    document, [.//...] and [./...] on any element. *)
Definition expressions : list (string * expr) :=
  [ (div_class_contains "search-result", Elems "div" (AttrContains "class" "search-result"));
    (div_class_contains "result", Elems "div" (AttrContains "class" "result"));
    (div_class_contains "article", Elems "div" (AttrContains "class" "article"));
    (div_class_contains "hotline", Elems "div" (AttrContains "class" "hotline"));
    (div_class_contains "news", Elems "div" (AttrContains "class" "news"));
    (div_class_contains "content-item", Elems "div" (AttrContains "class" "content-item"));
    ("//article", Elems "article" Any);
    (div_class_contains "list-item", Elems "div" (AttrContains "class" "list-item"));
    (link_selector, Elems "a" (AttrContains "href" "/"));
    ("//a[@href]", Elems "a" (HasAttr "href"));
    (".//h1/text()", DescText "h1" Any);
    (".//h2/text()", DescText "h2" Any);
    (".//h3/text()", DescText "h3" Any);
    (".//h4/text()", DescText "h4" Any);
    (".//a/text()", DescText "a" Any);
    (".//strong/text()", DescText "strong" Any);
    (".//p/text()", DescText "p" Any);
    (text_of_classed "span" "title", DescText "span" (AttrEq "class" "title"));
    (text_of_classed "div" "title", DescText "div" (AttrEq "class" "title"));
    (text_of_classed "div" "content", DescText "div" (AttrEq "class" "content"));
    (text_of_classed "div" "description", DescText "div" (AttrEq "class" "description"));
    (text_of_classed "div" "excerpt", DescText "div" (AttrEq "class" "excerpt"));
    (text_of_classed "span" "snippet", DescText "span" (AttrEq "class" "snippet"));
    (".//text()", AllText);
    (".//a/@href", DescAttr "a" "href");
    (".//@href", AnyAttr "href");
    ("./@href", SelfAttr "href");
    ("count(//a)", Count "a") ].

Fixpoint lookup_expr (s : string) (table : list (string * expr)) : option expr :=
  match table with
  | [] => None
  | (k, e) :: rest => if String.eqb k s then Some e else lookup_expr s rest
  end.

(** [element.xpath(expr)]; an expression outside the table is refused like
    a malformed one. *)
Definition xpath (n : node) (s : string) : option (xvalue node) :=
  match lookup_expr s expressions with
  | Some e => Some (eval e n)
  | None => None
  end.

(** Modelled from the spec: [searx.utils.eval_xpath_getindex] with default
    [None], the item at an index of the result list or the default. *)
Definition eval_xpath_getindex (el : item node) (s : string) (i : nat)
  : option (option (item node)) :=
  match el with
  | IElem n =>
      match xpath n s with
      | Some (XList l) => Some (nth_error l i)
      | _ => None
      end
  | IStr _ => None
  end.

(** Modelled from the spec: [searx.utils.extract_text], the visible text of
    an element with its white space normalised. *)
Definition extract_text (el : item node) : option (option string) :=
  match el with
  | IElem n => Some (Some (Py.strip (Py.re_sub_ws (String.concat EmptyString (texts n)))))
  | IStr s => Some (Some s)
  end.

(** The host in which [parse] is the HTML parser. *)
Definition host (parse : string -> option node) : Host node :=
  Build_Host node parse xpath eval_xpath_getindex extract_text.

(** The parser that knows one document and raises on any other text. *)
Definition parses (text : string) (doc : node) : string -> option node :=
  fun s => if String.eqb s text then Some doc else None.

End Lxml.

(** ** Documents to run the engine on *)

Module Pages.
Import Lxml.

Definition page (body : list node) : node :=
  Element "html" [] [Element "body" [] body].

(** The example of the specification: one article card. *)
Definition hotline_html : string :=
  "<article><h2>Cross-Border Tax Hotline</h2><p>Summary text.</p><a href='/hotline/123.html'></a></article>".
Definition hotline_page : node :=
  page [ Element "article" []
           [ Element "h2" [] [Text "Cross-Border Tax Hotline"];
             Element "p" [] [Text "Summary text."];
             Element "a" [("href", "/hotline/123.html")] [] ] ].

(** A card whose link is a relative path that begins with the letters
    http. *)
Definition httpdocs_html : string :=
  "<div class='result'><h2>Annual Budget Review</h2><a href='httpdocs/budget.html'>Read</a></div>".
Definition httpdocs_card : node :=
  Element "div" [("class", "result")]
    [ Element "h2" [] [Text "Annual Budget Review"];
      Element "a" [("href", "httpdocs/budget.html")] [Text "Read"] ].
Definition httpdocs_page : node := page [httpdocs_card].

(** A card that links a PDF below /research/. *)
Definition research_pdf_html : string :=
  "<div class='result'><h2>Annual Budget Review</h2><a href='/research/budget.pdf'>Read</a></div>".
Definition research_pdf_card : node :=
  Element "div" [("class", "result")]
    [ Element "h2" [] [Text "Annual Budget Review"];
      Element "a" [("href", "/research/budget.pdf")] [Text "Read"] ].
Definition research_pdf_page : node := page [research_pdf_card].

(** A card that links a PDF elsewhere. *)
Definition plain_pdf_html : string :=
  "<div class='result'><h2>Annual Budget Review</h2><a href='/files/budget.pdf'>Read</a></div>".
Definition plain_pdf_card : node :=
  Element "div" [("class", "result")]
    [ Element "h2" [] [Text "Annual Budget Review"];
      Element "a" [("href", "/files/budget.pdf")] [Text "Read"] ].
Definition plain_pdf_page : node := page [plain_pdf_card].

(** A card with a heading and no link at all. *)
Definition no_link_html : string :=
  "<div class='result'><h2>Annual Budget Review</h2></div>".
Definition no_link_card : node :=
  Element "div" [("class", "result")] [ Element "h2" [] [Text "Annual Budget Review"] ].
Definition no_link_page : node := page [no_link_card].

(** A card whose first paragraph holds a no-break space, code point 160,
    and which has three more paragraphs. *)
Definition nbsp : string := String "160"%char EmptyString.
Definition blank_first_html : string :=
  "<div class='result'><h2>Annual Budget Review</h2><a href='/budget.html'></a>"
  +:+ "<p>&nbsp;</p><p>First.</p><p>Second.</p><p>Third.</p></div>".
Definition blank_first_card : node :=
  Element "div" [("class", "result")]
    [ Element "h2" [] [Text "Annual Budget Review"];
      Element "a" [("href", "/budget.html")] [];
      Element "p" [] [Text nbsp];
      Element "p" [] [Text "First."];
      Element "p" [] [Text "Second."];
      Element "p" [] [Text "Third."] ].
Definition blank_first_page : node := page [blank_first_card].

(** A page of plain links, without any card. *)
Definition links_html : string :=
  "<p><a href='/about/firm.html'>About the firm and its people</a>"
  +:+ "<a href='#top'>Back to the top of the page</a><a href='/x'>Next</a></p>".
Definition links_page : node :=
  page [ Element "p" []
           [ Element "a" [("href", "/about/firm.html")] [Text "About the firm and its people"];
             Element "a" [("href", "#top")] [Text "Back to the top of the page"];
             Element "a" [("href", "/x")] [Text "Next"] ] ].

(** A card with one paragraph of 80 words, 399 code points. *)
Definition filler : string := String.concat " " (List.repeat "word" 80).
Definition long_html : string :=
  "<div class='result'><h2>Annual Budget Review</h2><a href='/long.html'></a><p>"
  +:+ filler +:+ "</p></div>".
Definition long_card : node :=
  Element "div" [("class", "result")]
    [ Element "h2" [] [Text "Annual Budget Review"];
      Element "a" [("href", "/long.html")] [];
      Element "p" [] [Text filler] ].
Definition long_page : node := page [long_card].
Definition long_record : record :=
  Link "https://www.nishithdesai.com/long.html" "[Legal Content] Annual Budget Review"
       (Py.take 297 filler +:+ "...").

(** A page of twelve plain links, each with a long enough text. *)
Definition number (n : nat) : string := NilZero.string_of_uint (Nat.to_uint n).
Definition numbered_link (n : nat) : node :=
  Element "a" [("href", "/page/" +:+ number n)] [Text ("Practice area number " +:+ number n)].
Definition numbered_link_html (n : nat) : string :=
  "<a href='/page/" +:+ number n +:+ "'>Practice area number " +:+ number n +:+ "</a>".
Definition twelve_links : list node := map numbered_link (seq 1 12).
Definition twelve_links_html : string :=
  "<p>" +:+ String.concat "" (map numbered_link_html (seq 1 12)) +:+ "</p>".
Definition twelve_links_page : node := page [Element "p" [] twelve_links].

(** The host whose parser knows the given document; the empty text, like
    any other, makes it raise. *)
Definition reads (html : string) (doc : node) : Host node := host (parses html doc).

End Pages.

Definition tax_law_params : request_params :=
  {| pageno := Some 2%Z; p_url := None; p_method := None; p_headers := None |}.

(** ** Further notions and documents *)

(** A visible ASCII code point: 33..126. *)
Definition printable_ascii (c : ascii) : bool :=
  let n := N_of_ascii c in ((33 <=? n) && (n <=? 126))%N.

(** The content types a LinkResult of the structured tier is tagged with. *)
Definition content_types : list string :=
  [ "Legal Hotline"; "Research Article"; "News"; "Legal Content" ].

Module Cards.
Import Lxml.

(** Twelve cards, each with a heading and a link. *)
Definition numbered_card (n : nat) : node :=
  Element "div" [("class", "result")]
    [ Element "h2" [] [Text ("Practice area number " +:+ Pages.number n)];
      Element "a" [("href", "/page/" +:+ Pages.number n)] [] ].
Definition numbered_card_html (n : nat) : string :=
  "<div class='result'><h2>Practice area number " +:+ Pages.number n
  +:+ "</h2><a href='/page/" +:+ Pages.number n +:+ "'></a></div>".
Definition twelve_cards : list node := map numbered_card (seq 1 12).
Definition twelve_cards_html : string := String.concat "" (map numbered_card_html (seq 1 12)).
Definition twelve_cards_page : node := Pages.page twelve_cards.

(** A card whose first anchor has an empty href and whose second anchor has
    a real one. *)
Definition empty_href_html : string :=
  "<div class='result'><h2>Annual Budget Review</h2><a href=''>Top</a>"
  +:+ "<a href='/budget.html'>Read</a></div>".
Definition empty_href_card : node :=
  Element "div" [("class", "result")]
    [ Element "h2" [] [Text "Annual Budget Review"];
      Element "a" [("href", "")] [Text "Top"];
      Element "a" [("href", "/budget.html")] [Text "Read"] ].
Definition empty_href_page : node := Pages.page [empty_href_card].

(** A card in which an element that is not an anchor carries an href before
    the anchor does. *)
Definition link_first_html : string :=
  "<div class='result'><link href='/style.css'><h2>Annual Budget Review</h2>"
  +:+ "<a href='/budget.html'>Read</a></div>".
Definition link_first_card : node :=
  Element "div" [("class", "result")]
    [ Element "link" [("href", "/style.css")] [];
      Element "h2" [] [Text "Annual Budget Review"];
      Element "a" [("href", "/budget.html")] [Text "Read"] ].
Definition link_first_page : node := Pages.page [link_first_card].

(** A card whose only paragraph holds a no-break space, beside a div of
    class content with a text. *)
Definition blank_paragraph_html : string :=
  "<div class='result'><h2>Annual Budget Review</h2><a href='/budget.html'></a>"
  +:+ "<p>&nbsp;</p><div class='content'>The budget in detail.</div></div>".
Definition blank_paragraph_card : node :=
  Element "div" [("class", "result")]
    [ Element "h2" [] [Text "Annual Budget Review"];
      Element "a" [("href", "/budget.html")] [];
      Element "p" [] [Text Pages.nbsp];
      Element "div" [("class", "content")] [Text "The budget in detail."] ].
Definition blank_paragraph_page : node := Pages.page [blank_paragraph_card].

End Cards.

(** * Properties *)

(** ** Strings *)

Module PyFacts.
Import Py.

Lemma length_app (a b : string) :
  String.length (a +:+ b) = String.length a + String.length b.
Proof. induction a as [|c a IH]; simpl; [reflexivity | now rewrite IH]. Qed.

Lemma is_empty_length (s : string) : is_empty s = true <-> String.length s = 0.
Proof. destruct s; simpl; split; intros; congruence. Qed.

Lemma is_empty_app (a b : string) : is_empty b = false -> is_empty (a +:+ b) = false.
Proof. destruct a; simpl; auto. Qed.

Lemma length_take (n : nat) (s : string) : String.length (take n s) <= n.
Proof.
  revert s; induction n as [|n IH]; intros [|c r]; simpl; try lia.
  specialize (IH r); lia.
Qed.

Lemma lstrip_head (s : string) (c : ascii) (r : string) :
  lstrip s = String c r -> isspace c = false.
Proof.
  induction s as [|d s IH]; simpl; [discriminate|].
  destruct (isspace d) eqn:E; auto.
  intros [= -> _]; assumption.
Qed.

Lemma rstrip_idem (s : string) : rstrip (rstrip s) = rstrip s.
Proof.
  induction s as [|c s IH]; simpl; [reflexivity|].
  destruct (isspace c && is_empty (rstrip s)) eqn:E; simpl; [reflexivity|].
  now rewrite IH, E.
Qed.

Lemma rstrip_cons (c : ascii) (r : string) :
  isspace c = false -> rstrip (String c r) = String c (rstrip r).
Proof. intros E; simpl; now rewrite E. Qed.

Lemma strip_idem (s : string) : strip (strip s) = strip s.
Proof.
  unfold strip.
  destruct (lstrip s) as [|c r] eqn:E; [reflexivity|].
  pose proof (lstrip_head _ _ _ E) as Hc.
  rewrite (rstrip_cons _ _ Hc). simpl lstrip. rewrite Hc.
  rewrite (rstrip_cons _ _ Hc). now rewrite rstrip_idem.
Qed.

Lemma rstrip_app (a t : string) :
  is_empty (rstrip t) = false -> rstrip (a +:+ t) = a +:+ rstrip t.
Proof.
  intros Ht; induction a as [|c a IH]; simpl; [reflexivity|].
  rewrite IH, (is_empty_app _ _ Ht), andb_false_r. reflexivity.
Qed.

(** A string that is its own trimming keeps it behind a prefix that does not
    begin with white space. *)
Lemma strip_prefixed (c : ascii) (a t : string) :
  isspace c = false -> is_empty (strip t) = false ->
  strip (String c a +:+ strip t) = String c a +:+ strip t.
Proof.
  intros Hc Ht. unfold strip at 1. simpl lstrip. rewrite Hc.
  change (String c (a +:+ strip t)) with (String c a +:+ strip t).
  rewrite rstrip_app.
  - unfold strip. now rewrite rstrip_idem.
  - unfold strip in *. now rewrite rstrip_idem.
Qed.

Lemma endswith_refl (p : string) : endswith p p = true.
Proof. destruct p; simpl; [reflexivity|]. now rewrite Ascii.eqb_refl, String.eqb_refl. Qed.

Lemma endswith_app (a p : string) : endswith p (a +:+ p) = true.
Proof.
  induction a as [|c a IH]; simpl.
  - apply endswith_refl.
  - rewrite IH. apply orb_true_r.
Qed.

Lemma startswith_app_l (p q s : string) :
  startswith (p +:+ q) s = true -> startswith p s = true.
Proof.
  revert s; induction p as [|c p IH]; intros s; simpl; [reflexivity|].
  destruct s as [|d s]; [discriminate|].
  intros E. apply andb_true_iff in E as [E1 E2]. now rewrite E1, (IH s E2).
Qed.

Lemma startswith_refl (p : string) : startswith p p = true.
Proof. induction p as [|c p IH]; simpl; [reflexivity|]. now rewrite Ascii.eqb_refl. Qed.

Lemma contains_endswith (p s : string) : endswith p s = true -> contains p s = true.
Proof.
  induction s as [|c s IH]; simpl.
  - rewrite orb_false_r. intros E. apply String.eqb_eq in E. subst p. reflexivity.
  - intros E. apply orb_true_iff in E as [E|E].
    + apply String.eqb_eq in E. subst p.
      change (startswith (String c s) (String c s)) with (Ascii.eqb c c && startswith s s).
      now rewrite Ascii.eqb_refl, startswith_refl.
    + rewrite (IH E). apply orb_true_r.
Qed.

End PyFacts.

(** ** Percent encoding reads back *)

Module UrlFacts.
Import Py Url.

Ltac each_byte b :=
  destruct b as [[|] [|] [|] [|] [|] [|] [|] [|]].

Lemma all_chars_app (P : ascii -> bool) (a b : string) :
  all_chars P (a +:+ b) = all_chars P a && all_chars P b.
Proof. induction a as [|c a IH]; simpl; [reflexivity|]. now rewrite IH, andb_assoc. Qed.

Lemma all_chars_impl (P Q : ascii -> bool) (s : string) :
  (forall c, P c = true -> Q c = true) -> all_chars P s = true -> all_chars Q s = true.
Proof.
  intros HPQ; induction s as [|c s IH]; simpl; [reflexivity|].
  intros E. apply andb_true_iff in E as [E1 E2]. now rewrite (HPQ _ E1), IH.
Qed.

Lemma quoted_is_not_amp (c : ascii) : quoted_char c = true -> is_not "&" c = true.
Proof. each_byte c; vm_compute; congruence. Qed.

Lemma quoted_is_not_eq (c : ascii) : quoted_char c = true -> is_not "=" c = true.
Proof. each_byte c; vm_compute; congruence. Qed.

Lemma quote_byte_chars (b : ascii) : all_chars quoted_char (quote_byte b) = true.
Proof. each_byte b; vm_compute; reflexivity. Qed.

Lemma quote_bytes_chars (bs : string) : all_chars quoted_char (quote_bytes bs) = true.
Proof.
  induction bs as [|b r IH]; simpl; [reflexivity|].
  now rewrite all_chars_app, quote_byte_chars, IH.
Qed.

Lemma quote_plus_chars (s : string) : all_chars quoted_char (quote_plus s) = true.
Proof. apply quote_bytes_chars. Qed.

Lemma unquote_quote_byte (b : ascii) (t : string) :
  unquote_plus (quote_byte b +:+ t) = String b (unquote_plus t).
Proof. each_byte b; reflexivity. Qed.

Lemma unquote_quote_bytes (bs : string) : unquote_plus (quote_bytes bs) = bs.
Proof.
  induction bs as [|b r IH]; simpl; [reflexivity|].
  now rewrite unquote_quote_byte, IH.
Qed.

Lemma utf8_decode_char (c : ascii) (t : string) :
  utf8_decode (utf8_char c +:+ t) = option_map (String c) (utf8_decode t).
Proof. each_byte c; reflexivity. Qed.

Lemma utf8_decode_encode (s : string) : utf8_decode (utf8_encode s) = Some s.
Proof.
  induction s as [|c r IH]; simpl; [reflexivity|].
  now rewrite utf8_decode_char, IH.
Qed.

Lemma decode_quote_plus (s : string) : decode_component (quote_plus s) = Some s.
Proof.
  unfold decode_component, quote_plus.
  now rewrite unquote_quote_bytes, utf8_decode_encode.
Qed.

Lemma split_on_free (sep : ascii) (a : string) :
  all_chars (is_not sep) a = true -> split_on sep a = [a].
Proof.
  induction a as [|c a IH]; simpl; [reflexivity|].
  intros E. apply andb_true_iff in E as [E1 E2].
  unfold is_not in E1. apply negb_true_iff in E1. rewrite E1, (IH E2). reflexivity.
Qed.

Lemma split_on_app (sep : ascii) (a b : string) :
  all_chars (is_not sep) a = true ->
  split_on sep (a +:+ String sep b) = a :: split_on sep b.
Proof.
  induction a as [|c a IH]; simpl.
  - now rewrite Ascii.eqb_refl.
  - intros E. apply andb_true_iff in E as [E1 E2].
    unfold is_not in E1. apply negb_true_iff in E1. rewrite E1, (IH E2). reflexivity.
Qed.

Lemma partition_on_app (sep : ascii) (k v : string) :
  all_chars (is_not sep) k = true ->
  partition_on sep (k +:+ String sep v) = (k, v).
Proof.
  induction k as [|c k IH]; simpl.
  - now rewrite Ascii.eqb_refl.
  - intros E. apply andb_true_iff in E as [E1 E2].
    unfold is_not in E1. apply negb_true_iff in E1. rewrite E1, (IH E2). reflexivity.
Qed.

Lemma encode_pair_chars (kv : string * string) :
  all_chars (is_not "&") (encode_pair kv) = true.
Proof.
  unfold encode_pair. rewrite !all_chars_app. simpl.
  rewrite !(all_chars_impl _ _ _ quoted_is_not_amp (quote_plus_chars _)). reflexivity.
Qed.

Lemma decode_encode_pair (kv : string * string) :
  decode_field (encode_pair kv) = Some kv.
Proof.
  destruct kv as [k v]. unfold decode_field, encode_pair. simpl fst; simpl snd.
  change ("=" +:+ quote_plus v) with (String "=" (quote_plus v)).
  rewrite partition_on_app
    by exact (all_chars_impl _ _ _ quoted_is_not_eq (quote_plus_chars k)).
  now rewrite !decode_quote_plus.
Qed.

Lemma decode_fields_urlencode (kv : string * string) (l : list (string * string)) :
  decode_fields (split_on "&" (urlencode (kv :: l))) = Some (kv :: l).
Proof.
  revert kv; induction l as [|kv' l IH]; intros kv; unfold urlencode.
  - simpl map. simpl join. rewrite (split_on_free _ _ (encode_pair_chars kv)).
    simpl. now rewrite decode_encode_pair.
  - change (join "&" (map encode_pair (kv :: kv' :: l)))
      with (encode_pair kv +:+ String "&" (urlencode (kv' :: l))).
    rewrite (split_on_app _ _ _ (encode_pair_chars kv)).
    simpl. now rewrite decode_encode_pair, IH.
Qed.

Lemma urlencode_nonempty (kv : string * string) (l : list (string * string)) :
  is_empty (urlencode (kv :: l)) = false.
Proof.
  unfold urlencode.
  assert (E : is_empty (encode_pair kv) = false).
  { unfold encode_pair. apply PyFacts.is_empty_app. reflexivity. }
  destruct l as [|kv' l]; simpl map; simpl join; [exact E|].
  destruct (encode_pair kv); [discriminate | reflexivity].
Qed.

(** Decoding an encoded dict gives its items back. *)
Lemma parse_qsl_urlencode (l : list (string * string)) :
  parse_qsl (urlencode l) = Some l.
Proof.
  destruct l as [|kv l]; [reflexivity|].
  unfold parse_qsl. rewrite urlencode_nonempty. apply decode_fields_urlencode.
Qed.

Lemma urlencode_chars (l : list (string * string)) :
  all_chars query_char (urlencode l) = true.
Proof.
  assert (Hq : forall s, all_chars query_char (quote_plus s) = true).
  { intros s. apply (all_chars_impl quoted_char); [|apply quote_plus_chars].
    intros c Hc. unfold query_char. now rewrite Hc. }
  assert (Hp : forall kv, all_chars query_char (encode_pair kv) = true).
  { intros kv. unfold encode_pair. rewrite !all_chars_app, !Hq. reflexivity. }
  unfold urlencode. induction l as [|kv [|kv' l] IH]; [reflexivity | apply Hp |].
  change (join "&" (map encode_pair (kv :: kv' :: l)))
    with (encode_pair kv +:+ String "&" (join "&" (map encode_pair (kv' :: l)))).
  rewrite all_chars_app, Hp. simpl all_chars at 1. exact IH.
Qed.

Lemma int_of_str_of_int (n : Z) :
  option_map Z.of_int (NilZero.int_of_string (str_of_int n)) = Some n.
Proof.
  unfold str_of_int. rewrite NilZero.isi.
  - simpl. now rewrite DecimalZ.of_to.
  - destruct n; simpl; try discriminate.
    intros E. injection E as E.
    now apply (DecimalPos.Unsigned.to_uint_nonnil p).
  - destruct n; simpl; try discriminate.
    intros E. injection E as E.
    now apply (DecimalPos.Unsigned.to_uint_nonnil p).
Qed.

End UrlFacts.

(** ** request *)



Example request_default_page :
  p_url (request "gst" {| pageno := None; p_url := None; p_method := None; p_headers := None |})
  = Some "https://www.nishithdesai.com/Search.html?q=gst&searchtext=gst&page=1&results=20".
Proof. reflexivity. Qed.

(** ** fetch_traits *)

(** C9. On any traits object [fetch_traits] sets the locale en-IN, the
    language en to English and the regions IN and US and leaves the other
    entries alone; a second call changes nothing, and a fresh traits object
    always ends with the same contents. *)
Theorem fetch_traits_idempotent (t : EngineTraits) :
  all_locale (fetch_traits t) = Some "en-IN" /\
  languages (fetch_traits t) !! "en" = Some "English" /\
  regions (fetch_traits t) !! "IN" = Some "India" /\
  regions (fetch_traits t) !! "US" = Some "United States" /\
  (forall k, k <> "en" -> languages (fetch_traits t) !! k = languages t !! k) /\
  (forall k, k <> "IN" -> k <> "US" -> regions (fetch_traits t) !! k = regions t !! k) /\
  fetch_traits (fetch_traits t) = fetch_traits t /\
  fetch_traits fresh_traits =
    {| all_locale := Some "en-IN";
       languages := {[ "en" := "English" ]};
       regions := <["US" := "United States"]> {[ "IN" := "India" ]} |}.
Proof.
  unfold fetch_traits; simpl.
  repeat split.
  - apply lookup_insert_eq.
  - rewrite lookup_insert_ne by discriminate. apply lookup_insert_eq.
  - apply lookup_insert_eq.
  - intros k Hk. now rewrite lookup_insert_ne.
  - intros k H1 H2. now rewrite !lookup_insert_ne.
  - f_equal.
    + apply insert_insert_eq.
    + apply map_eq; intros k.
      destruct (decide (k = "US")) as [->|HU]; [now rewrite !lookup_insert_eq|].
      rewrite !(lookup_insert_ne _ "US") by congruence.
      destruct (decide (k = "IN")) as [->|HI]; [now rewrite !lookup_insert_eq|].
      rewrite !(lookup_insert_ne _ "IN") by congruence.
      now rewrite !lookup_insert_ne by congruence.
Qed.

(** ** eval_xpath *)


(** ** The loops and the candidates of response *)

Section EngineFacts.

Context {element : Type} `{Host element}.

Local Abbreviation item := (item element).

(** The cascade returns the value of the first selector, in the order of
    the list, whose value is truthy. *)
Lemma select_first_some (el : item) (sels : list string) (v : xvalue element) :
  select_first el sels = Some v <->
  exists pre sel post,
    sels = pre ++ sel :: post /\ Forall (falsy el) pre /\
    eval_xpath el sel = v /\ truthy v = true.
Proof.
  induction sels as [|s sels IH]; simpl.
  - split; [discriminate|]. intros (pre & sel & post & E & _). now destruct pre.
  - destruct (truthy (eval_xpath el s)) eqn:T.
    + split.
      * intros [= <-]. exists [], s, sels. repeat split; auto.
      * intros (pre & sel & post & E & Hpre & Hv & Ht).
        destruct pre as [|p pre]; simpl in E; injection E as -> ->.
        -- now rewrite Hv.
        -- apply Forall_cons in Hpre as [Hp _]. unfold falsy in Hp. congruence.
    + rewrite IH. split.
      * intros (pre & sel & post & -> & Hpre & Hv & Ht).
        exists (s :: pre), sel, post. repeat split; auto.
      * intros (pre & sel & post & E & Hpre & Hv & Ht).
        destruct pre as [|p pre]; simpl in E; injection E as -> ->.
        -- congruence.
        -- apply Forall_cons in Hpre as [_ Hpre]. exists pre, sel, post. auto.
Qed.

Lemma select_first_none (el : item) (sels : list string) :
  select_first el sels = None <-> Forall (falsy el) sels.
Proof.
  induction sels as [|s sels IH]; simpl.
  - split; auto.
  - destruct (truthy (eval_xpath el s)) eqn:T.
    + split; [discriminate|]. intros HF. apply Forall_cons in HF as [Hs _].
      unfold falsy in Hs. congruence.
    + rewrite IH. split; [intros HF; now constructor | intros HF; now apply Forall_cons in HF as [_ ?]].
Qed.

Lemma structured_loop_app (results : list item) (res : EngineResults) :
  structured_loop results res = res ++ omap candidate results.
Proof.
  revert res; induction results as [|x results IH]; intros res; simpl.
  - now rewrite app_nil_r.
  - destruct (candidate x) as [r|]; rewrite IH; [|reflexivity].
    unfold add. now rewrite <- app_assoc.
Qed.

Lemma structured_loop_origin (results : list item) (r : record) :
  In r (structured_loop results []) <-> exists x, In x results /\ candidate x = Some r.
Proof.
  rewrite structured_loop_app. simpl. rewrite <- list_elem_of_In, list_elem_of_omap.
  split; intros (x & Hx & Hc); exists x; split; auto; now apply list_elem_of_In.
Qed.

Lemma fallback_loop_cons (link : item) (rest : list item) (res : EngineResults) :
  fallback_loop (link :: rest) res =
  match fallback_link link with
  | Some r =>
      if (10 <=? length (add res r))%nat then add res r
      else fallback_loop rest (add res r)
  | None => fallback_loop rest res
  end.
Proof. reflexivity. Qed.

Lemma in_add (res : EngineResults) (r' r : record) :
  In r (add res r') <-> In r res \/ r = r'.
Proof. unfold add. rewrite in_app_iff. simpl. intuition. Qed.

Lemma length_add (res : EngineResults) (r : record) : length (add res r) = S (length res).
Proof. unfold add. rewrite length_app. simpl. lia. Qed.

Lemma fallback_loop_origin (links : list item) (res : EngineResults) (r : record) :
  In r (fallback_loop links res) ->
  In r res \/ exists link, In link links /\ fallback_link link = Some r.
Proof.
  revert res; induction links as [|x links IH]; intros res; [simpl; auto|].
  rewrite fallback_loop_cons.
  destruct (fallback_link x) as [r'|] eqn:E.
  - destruct (10 <=? length (add res r'))%nat.
    + rewrite in_add. intros [?| ->]; [auto|]. right. exists x. simpl; auto.
    + intros Hr. apply IH in Hr as [Hr|(l & Hl & Hr)].
      * apply in_add in Hr as [?| ->]; [auto|]. right. exists x. simpl; auto.
      * right. exists l. simpl; auto.
  - intros Hr. apply IH in Hr as [?|(l & Hl & Hr)]; [auto|]. right. exists l. simpl; auto.
Qed.

Lemma fallback_loop_length (links : list item) (res : EngineResults) :
  length res < 10 -> length (fallback_loop links res) <= 10.
Proof.
  revert res; induction links as [|x links IH]; intros res Hres; [simpl; lia|].
  rewrite fallback_loop_cons.
  destruct (fallback_link x) as [r'|]; [|now apply IH].
  pose proof (length_add res r') as Hadd.
  destruct (10 <=? length (add res r'))%nat eqn:E.
  - lia.
  - apply Nat.leb_gt in E. now apply IH.
Qed.

Lemma response_origin (text : string) (r : record) :
  In r (response text) ->
  (exists x, from_structured text x r) \/ (exists link, from_last_resort text link r).
Proof.
  unfold response. destruct (fromstring text) as [dom|] eqn:Ep; [|intros []].
  unfold parse_document. destruct (iter (containers dom)) as [results|] eqn:Ei; [|intros []].
  destruct (length (structured_loop results []) =? 0)%nat eqn:E0.
  - apply Nat.eqb_eq, length_zero_iff_nil in E0. rewrite E0.
    unfold last_resort. destruct (iter (eval_xpath (IElem dom) "//a[@href]")) as [links|] eqn:El; [|intros []].
    intros Hr. apply fallback_loop_origin in Hr as [[]|(l & Hl & Hr)].
    right. exists l, dom, links. auto.
  - intros Hr. apply structured_loop_origin in Hr as (x & Hx & Hc).
    left. exists x, dom, results. auto.
Qed.

End EngineFacts.

Lemma append_assoc (a b c : string) : (a +:+ b) +:+ c = a +:+ (b +:+ c).
Proof. induction a as [|x a IH]; simpl; [reflexivity | now rewrite IH]. Qed.

Lemma normalize_url_http (url : string) : Py.startswith "http" (normalize_url url) = true.
Proof.
  unfold normalize_url.
  destruct (Py.startswith "/" url); [reflexivity|].
  destruct (Py.startswith "http" url) eqn:E; [exact E | reflexivity].
Qed.

Lemma truncate_length (content : string) : String.length (truncate content) <= 300.
Proof.
  unfold truncate. destruct (300 <? String.length content)%nat eqn:E.
  - rewrite PyFacts.length_app. pose proof (PyFacts.length_take 297 content) as Ht.
    change (String.length "...") with 3. lia.
  - apply Nat.ltb_ge in E. exact E.
Qed.

Lemma truncate_long (content : string) :
  300 < String.length content ->
  truncate content = Py.take 297 content +:+ "..." /\
  Py.endswith "..." (truncate content) = true.
Proof.
  intros Hl. unfold truncate. apply Nat.ltb_lt in Hl. rewrite Hl.
  split; [reflexivity | apply PyFacts.endswith_app].
Qed.

Lemma classify_cases (url title content : string) :
  (exists content_type, classify url title content = Link url (formatted_title content_type title) content)
  \/ classify url title content = File url title content "files.html".
Proof.
  unfold classify.
  repeat match goal with |- context [if ?b then _ else _] => destruct b end; eauto.
Qed.

(** A trimmed title of five code points or more is still one behind the
    content type prefix. *)
Lemma formatted_title_trimmed (content_type s : string) :
  Py.is_empty (Py.strip s) = false ->
  Py.strip (formatted_title content_type (Py.strip s)) = formatted_title content_type (Py.strip s).
Proof.
  intros Hs. unfold formatted_title.
  change ("[" +:+ content_type +:+ "] " +:+ Py.strip s)
    with (String "[" (content_type +:+ ("] " +:+ Py.strip s))).
  rewrite <- append_assoc.
  change (String "[" ((content_type +:+ "] ") +:+ Py.strip s))
    with (String "[" (content_type +:+ "] ") +:+ Py.strip s).
  now apply PyFacts.strip_prefixed.
Qed.

Lemma formatted_title_length (content_type title : string) :
  String.length title <= String.length (formatted_title content_type title).
Proof. unfold formatted_title. rewrite !PyFacts.length_app. lia. Qed.

Section CandidateFacts.

Context {element : Type} `{Host element}.

Local Abbreviation item := (item element).

Lemma title_text_some (x : item) (title : string) :
  title_text x = Some (Some title) <->
  exists v s, select_first x title_selectors = Some v /\ index0 v = Some (IStr s) /\ title = Py.strip s.
Proof.
  unfold title_text. destruct (select_first x title_selectors) as [v|].
  - split.
    + destruct (index0 v) as [[e|s]|] eqn:E; simpl; try discriminate.
      intros [= <-]. now exists v, s.
    + intros (v' & s' & [= <-] & -> & ->). reflexivity.
  - split; [discriminate|]. intros (v' & s' & ? & _); discriminate.
Qed.

Lemma extract_title_some (x : item) (title : string) :
  extract_title x = Some title <->
  title_text x = Some (Some title) /\ title_rejected (Some title) = false.
Proof.
  unfold extract_title. destruct (title_text x) as [[t|]|]; simpl.
  - destruct (Py.is_empty t || (String.length t <? 5)%nat) eqn:E.
    + split; [discriminate|]. intros [[= <-] E']. congruence.
    + split; [intros [= <-]; auto | intros [[= <-] _]; reflexivity].
  - split; [discriminate | intros [? _]; discriminate].
  - split; [discriminate | intros [? _]; discriminate].
Qed.

Lemma extract_title_shape (x : item) (title : string) :
  extract_title x = Some title ->
  exists s, title = Py.strip s /\ Py.is_empty title = false /\ 5 <= String.length title.
Proof.
  intros E. apply extract_title_some in E as [Et Er].
  apply title_text_some in Et as (v & s & _ & _ & ->).
  simpl in Er. apply orb_false_iff in Er as [E1 E2]. apply Nat.ltb_ge in E2.
  now exists s.
Qed.

Lemma candidate_some (x : item) (r : record) :
  candidate x = Some r <->
  exists title url content,
    extract_title x = Some title /\ extract_url x = Some url /\
    extract_content x = Some content /\ r = classify url title content.
Proof.
  unfold candidate.
  destruct (extract_title x) as [t|]; simpl;
    [|split; [discriminate | intros (? & ? & ? & ? & _); discriminate]].
  destruct (extract_url x) as [u|]; simpl;
    [|split; [discriminate | intros (? & ? & ? & _ & ? & _); discriminate]].
  destruct (extract_content x) as [c|]; simpl;
    [|split; [discriminate | intros (? & ? & ? & _ & _ & ? & _); discriminate]].
  split.
  - intros [= <-]. now exists t, u, c.
  - intros (t' & u' & c' & [= <-] & [= <-] & [= <-] & ->). reflexivity.
Qed.

Lemma extract_url_some (x : item) (url : string) :
  extract_url x = Some url <-> exists href, find_url x = Some href /\ url = normalize_url href.
Proof.
  unfold extract_url. destruct (find_url x) as [h|]; simpl.
  - split; [intros [= <-]; now exists h | intros (h' & [= <-] & ->); reflexivity].
  - split; [discriminate | intros (? & ? & _); discriminate].
Qed.

Lemma extract_content_some (x : item) (content : string) :
  extract_content x = Some content <->
  exists raw, raw_content x = Some raw /\ content = clean_content raw.
Proof.
  unfold extract_content. destruct (raw_content x) as [c|]; simpl.
  - split; [intros [= <-]; now exists c | intros (c' & [= <-] & ->); reflexivity].
  - split; [discriminate | intros (? & ? & _); discriminate].
Qed.

Lemma fallback_link_some (link : item) (r : record) :
  fallback_link link = Some r <->
  exists href link_text,
    eval_xpath_getindex link "./@href" 0 = Some (Some (IStr href)) /\
    extract_text link = Some (Some link_text) /\
    Py.is_empty href = false /\ Py.is_empty link_text = false /\
    10 < String.length (Py.strip link_text) /\
    href_refused href = false /\
    r = Link (normalize_url href) (Py.strip link_text) fallback_content.
Proof.
  unfold fallback_link. split.
  - destruct (eval_xpath_getindex link "./@href" 0) as [[[e|h]|]|]; simpl; try discriminate;
      destruct (extract_text link) as [[t|]|]; simpl; try discriminate.
    destruct (Py.is_empty h) eqn:E1; simpl; [discriminate|].
    destruct (Py.is_empty t) eqn:E2; simpl; [discriminate|].
    destruct (10 <? String.length (Py.strip t))%nat eqn:E3; simpl; [|discriminate].
    destruct (href_refused h) eqn:E4; simpl; [discriminate|].
    apply Nat.ltb_lt in E3.
    intros [= <-]. exists h, t. auto 10.
  - intros (h & t & -> & -> & E1 & E2 & E3 & E4 & ->). simpl.
    apply Nat.ltb_lt in E3. now rewrite E1, E2, E3, E4.
Qed.

End CandidateFacts.

Lemma normalize_url_joined (href : string) :
  Py.startswith "http" href = false ->
  Py.startswith "https://www.nishithdesai.com/" (normalize_url href) = true.
Proof.
  intros Hh. unfold normalize_url.
  destruct href as [|c r]; [reflexivity|].
  destruct (Py.startswith "/" (String c r)) eqn:E.
  - simpl in E. destruct (Ascii.eqb "/" c) eqn:Ec; [|discriminate].
    apply Ascii.eqb_eq in Ec. subst c. reflexivity.
  - rewrite Hh. reflexivity.
Qed.

(** ** response: titles and URLs *)

(** The example of the specification. *)
Example hotline_example :
  response (H := Pages.reads Pages.hotline_html Pages.hotline_page) Pages.hotline_html
  = [ Link "https://www.nishithdesai.com/hotline/123.html"
           "[Legal Hotline] Cross-Border Tax Hotline" "Summary text." ].
Proof. reflexivity. Qed.

(** What holds of the titles and URLs of C1.  When a container selector of
    the structured tier matches, every record of [response] has a title of
    at least 5 code points after trimming and a URL that begins with http:
    the URL is the href found, joined to https://www.nishithdesai.com/
    unless the href itself begins with the letters http, in which case it
    is kept as it is. *)
Theorem response_title_and_url {element : Type} `{Host element}
    (text : string) (dom : element) (r : record) :
  fromstring text = Some dom ->
  structured_match dom ->
  In r (response text) ->
  5 <= String.length (Py.strip (record_title r)) /\
  Py.startswith "http" (record_url r) = true /\
  exists href,
    record_url r = normalize_url href /\
    (Py.startswith "http" href = false -> is_absolute (record_url r) = true) /\
    (Py.startswith "http" href = true -> record_url r = href).
Proof.
  intros _ _ Hr.
  assert (Hurl : forall href,
    (Py.startswith "http" href = false -> is_absolute (normalize_url href) = true) /\
    (Py.startswith "http" href = true -> normalize_url href = href)).
  { intros href. split; intros Hh.
    - pose proof (normalize_url_joined href Hh) as Hj. unfold is_absolute.
      rewrite (PyFacts.startswith_app_l "https://" "www.nishithdesai.com/" _ Hj).
      apply orb_true_r.
    - unfold normalize_url. rewrite Hh.
      destruct href as [|c s]; [discriminate|]. simpl in Hh |- *.
      destruct (Ascii.eqb "/" c) eqn:Ec; [|reflexivity].
      apply Ascii.eqb_eq in Ec. subst c. discriminate. }
  apply response_origin in Hr as [(x & dom' & results & _ & _ & _ & Hc)|(link & dom' & links & _ & _ & _ & Hl)].
  - apply candidate_some in Hc as (t & u & c & Ht & Hu & _ & ->).
    apply extract_title_shape in Ht as (s & -> & Hne & Hlen).
    apply extract_url_some in Hu as (href & _ & ->).
    assert (Htitle : 5 <= String.length (Py.strip (record_title (classify (normalize_url href) (Py.strip s) c)))).
    { destruct (classify_cases (normalize_url href) (Py.strip s) c) as [(ct & ->)| ->];
        unfold record_title.
      - rewrite (formatted_title_trimmed ct s Hne).
        pose proof (formatted_title_length ct (Py.strip s)). lia.
      - now rewrite PyFacts.strip_idem. }
    assert (Hru : record_url (classify (normalize_url href) (Py.strip s) c) = normalize_url href).
    { destruct (classify_cases (normalize_url href) (Py.strip s) c) as [(ct & ->)| ->]; reflexivity. }
    rewrite Hru. split; [exact Htitle|]. split; [apply normalize_url_http|].
    exists href. split; [reflexivity | apply Hurl].
  - apply fallback_link_some in Hl as (href & t & _ & _ & _ & _ & Hlen & _ & ->).
    unfold record_title, record_url.
    rewrite PyFacts.strip_idem. split; [lia|]. split; [apply normalize_url_http|].
    exists href. split; [reflexivity | apply Hurl].
Qed.

Lemma response_title_and_url_witness :
  In (Link "https://www.nishithdesai.com/hotline/123.html"
           "[Legal Hotline] Cross-Border Tax Hotline" "Summary text.")
     (response (H := Pages.reads Pages.hotline_html Pages.hotline_page) Pages.hotline_html)
  /\ 5 <= String.length (Py.strip "[Legal Hotline] Cross-Border Tax Hotline")
  /\ Py.startswith "http" "https://www.nishithdesai.com/hotline/123.html" = true.
Proof.
  assert (Hin : In (Link "https://www.nishithdesai.com/hotline/123.html"
                         "[Legal Hotline] Cross-Border Tax Hotline" "Summary text.")
                   (response (H := Pages.reads Pages.hotline_html Pages.hotline_page)
                      Pages.hotline_html)).
  { vm_compute. left. reflexivity. }
  split; [exact Hin|].
  destruct (response_title_and_url (H := Pages.reads Pages.hotline_html Pages.hotline_page)
              Pages.hotline_html Pages.hotline_page _ eq_refl
              (ex_intro _ "//article" (conj (or_intror (or_intror (or_intror (or_intror
                 (or_intror (or_intror (or_introl eq_refl)))))))  eq_refl))
              Hin) as (Ht & Hu & _).
  split; [exact Ht | exact Hu].
Defined.

(** C1. The code at the failing input: the card matches the container
    selector for the class result, its href httpdocs/budget.html begins
    with the letters http and so is left as it is, and the record has a URL
    without a scheme. *)
Lemma response_keeps_relative_href :
  structured_match (H := Pages.reads Pages.httpdocs_html Pages.httpdocs_page) Pages.httpdocs_page /\
  response (H := Pages.reads Pages.httpdocs_html Pages.httpdocs_page) Pages.httpdocs_html
  = [ Link "httpdocs/budget.html" "[Legal Content] Annual Budget Review"
           "Annual Budget Review Read" ] /\
  is_absolute "httpdocs/budget.html" = false.
Proof.
  split; [|split; reflexivity].
  exists (div_class_contains "result"). split; [vm_compute; auto | reflexivity].
Qed.

(** The statement of C1 does not hold of every document: the card above
    matches a container selector, and its record keeps the href as the
    URL, which has no scheme. *)
Lemma response_url_without_scheme :
  ~ (forall (element : Type) (H : Host element) (text : string) (dom : element) (r : record),
       fromstring text = Some dom ->
       structured_match dom ->
       In r (response text) ->
       5 <= String.length (Py.strip (record_title r)) /\ is_absolute (record_url r) = true).
Proof.
  intros C.
  destruct (C _ (Pages.reads Pages.httpdocs_html Pages.httpdocs_page)
              Pages.httpdocs_html Pages.httpdocs_page
              (Link "httpdocs/budget.html" "[Legal Content] Annual Budget Review"
                    "Annual Budget Review Read")) as [_ Habs].
  - reflexivity.
  - exists (div_class_contains "result"). split; [vm_compute; auto | reflexivity].
  - vm_compute. left. reflexivity.
  - discriminate Habs.
Qed.

(** ** response: the snippet *)

(** C2. Every record of [response] has a content of at most 300 code
    points.  A record of the last resort tier has the fixed content; a
    record of the structured tier has the cleaned content of its candidate,
    whole when that has at most 300 code points, and else its first 297
    code points followed by three dots. *)
Theorem response_snippet_length {element : Type} `{Host element} (text : string) (r : record) :
  In r (response text) ->
  String.length (record_content r) <= 300 /\
  ((exists link, from_last_resort text link r /\ record_content r = fallback_content) \/
   (exists x raw,
      from_structured text x r /\ raw_content x = Some raw /\
      let cleaned := Py.strip (Py.re_sub_ws raw) in
      (String.length cleaned <= 300 -> record_content r = cleaned) /\
      (300 < String.length cleaned ->
         record_content r = Py.take 297 cleaned +:+ "..." /\
         Py.endswith "..." (record_content r) = true))).
Proof.
  intros Hr.
  apply response_origin in Hr as [(x & Hx)|(link & Hl)].
  - pose proof Hx as (dom & results & _ & _ & _ & Hc).
    apply candidate_some in Hc as (t & u & c & _ & _ & Hcont & ->).
    apply extract_content_some in Hcont as (raw & Hraw & ->).
    assert (Hrc : record_content (classify u t (clean_content raw)) = clean_content raw).
    { destruct (classify_cases u t (clean_content raw)) as [(ct & ->)| ->]; reflexivity. }
    rewrite Hrc. split; [apply truncate_length|].
    right. exists x, raw. split; [exact Hx|]. split; [exact Hraw|].
    unfold clean_content. split.
    + intros Hle. unfold truncate. apply Nat.ltb_ge in Hle. now rewrite Hle.
    + apply truncate_long.
  - pose proof Hl as (dom & links & _ & _ & _ & Hf).
    apply fallback_link_some in Hf as (href & t & _ & _ & _ & _ & _ & _ & ->).
    split; [vm_compute; lia|]. left. exists link. split; [exact Hl | reflexivity].
Qed.

Lemma response_snippet_length_witness :
  In Pages.long_record
     (response (H := Pages.reads Pages.long_html Pages.long_page) Pages.long_html)
  /\ String.length (record_content Pages.long_record) <= 300.
Proof.
  assert (Hin : In Pages.long_record
                  (response (H := Pages.reads Pages.long_html Pages.long_page) Pages.long_html)).
  { vm_compute. left. reflexivity. }
  split; [exact Hin|].
  exact (proj1 (response_snippet_length
                  (H := Pages.reads Pages.long_html Pages.long_page)
                  Pages.long_html Pages.long_record Hin)).
Defined.

Example long_card_truncated :
  response (H := Pages.reads Pages.long_html Pages.long_page) Pages.long_html
  = [Pages.long_record]
  /\ String.length Pages.filler = 399
  /\ String.length (record_content Pages.long_record) = 300
  /\ Py.endswith "..." (record_content Pages.long_record) = true.
Proof. vm_compute. auto. Qed.

(** ** response: the last resort tier *)

(** C6. The last resort tier runs only when the structured tier accepted
    nothing; it adds at most 10 records, and each of them comes from a link
    whose href does not begin with #, javascript: or mailto: and whose
    visible text has more than 10 code points after trimming. *)
Theorem last_resort_bounded {element : Type} `{Host element}
    (text : string) (dom : element) (results : list (item element)) :
  fromstring text = Some dom ->
  iter (containers dom) = Some results ->
  (structured_loop results [] <> [] -> response text = structured_loop results []) /\
  (structured_loop results [] = [] -> response text = last_resort dom []) /\
  length (last_resort dom []) <= 10 /\
  forall r, In r (last_resort dom []) ->
    exists link href link_text,
      eval_xpath_getindex link "./@href" 0 = Some (Some (IStr href)) /\
      extract_text link = Some (Some link_text) /\
      r = Link (normalize_url href) (Py.strip link_text) fallback_content /\
      Py.startswith "#" href = false /\
      Py.startswith "javascript:" href = false /\
      Py.startswith "mailto:" href = false /\
      10 < String.length (Py.strip link_text).
Proof.
  intros Hp Hi. unfold response, parse_document. rewrite Hp, Hi.
  split; [|split; [|split]].
  - intros Hne. destruct (structured_loop results []) as [|r0 l]; [congruence | reflexivity].
  - intros ->. reflexivity.
  - unfold last_resort. destruct (iter (eval_xpath (IElem dom) "//a[@href]")) as [links|].
    + apply fallback_loop_length. simpl. lia.
    + simpl. lia.
  - intros r. unfold last_resort.
    destruct (iter (eval_xpath (IElem dom) "//a[@href]")) as [links|]; [|intros []].
    intros Hr. apply fallback_loop_origin in Hr as [[]|(link & _ & Hf)].
    apply fallback_link_some in Hf as (href & t & Hh & Ht & _ & _ & Hlen & Href & ->).
    unfold href_refused in Href.
    apply orb_false_iff in Href as [Href Hm]. apply orb_false_iff in Href as [Hs Hj].
    exists link, href, t. auto 10.
Qed.

Lemma last_resort_bounded_witness :
  response (H := Pages.reads Pages.twelve_links_html Pages.twelve_links_page)
    Pages.twelve_links_html
  = last_resort (H := Pages.reads Pages.twelve_links_html Pages.twelve_links_page)
      Pages.twelve_links_page []
  /\ length (last_resort (H := Pages.reads Pages.twelve_links_html Pages.twelve_links_page)
               Pages.twelve_links_page []) <= 10.
Proof.
  destruct (last_resort_bounded
              (H := Pages.reads Pages.twelve_links_html Pages.twelve_links_page)
              Pages.twelve_links_html Pages.twelve_links_page
              (map IElem Pages.twelve_links) eq_refl eq_refl) as (_ & Hrun & Hlen & _).
  split; [apply Hrun; reflexivity | exact Hlen].
Defined.

Example twelve_links_capped :
  map record_url
    (response (H := Pages.reads Pages.twelve_links_html Pages.twelve_links_page)
       Pages.twelve_links_html)
  = map (fun n => "https://www.nishithdesai.com/page/" +:+ Pages.number n) (seq 1 10).
Proof. vm_compute. reflexivity. Qed.

Example plain_links_filtered :
  response (H := Pages.reads Pages.links_html Pages.links_page) Pages.links_html
  = [ Link "https://www.nishithdesai.com/about/firm.html" "About the firm and its people"
           "Content from Nishith Desai Associates" ].
Proof. reflexivity. Qed.

(** ** response: a document that does not parse *)

(** C7. When the parser raises on the text of the response, [response]
    returns the empty result list. *)
Theorem response_parse_failure {element : Type} `{Host element} (text : string) :
  fromstring text = None -> response text = [].
Proof. intros Hp. unfold response. now rewrite Hp. Qed.

Lemma response_parse_failure_witness :
  response (H := Pages.reads Pages.links_html Pages.links_page) "" = [].
Proof.
  exact (response_parse_failure (H := Pages.reads Pages.links_html Pages.links_page) "" eq_refl).
Defined.

(** ** response: PDF documents *)

Lemma endswith_lower (p s : string) :
  Py.endswith p s = true -> Py.endswith (Py.lower p) (Py.lower s) = true.
Proof.
  induction s as [|c s IH].
  - simpl. rewrite !orb_false_r. intros E. apply String.eqb_eq in E. subst p. reflexivity.
  - intros E. change (Py.endswith p (String c s))
      with (String.eqb p (String c s) || Py.endswith p s) in E.
    apply orb_true_iff in E as [E|E].
    + apply String.eqb_eq in E. subst p. apply PyFacts.endswith_refl.
    + change (Py.lower (String c s)) with (String (Py.lower_char c) (Py.lower s)).
      change (Py.endswith (Py.lower p) (String (Py.lower_char c) (Py.lower s)))
        with (String.eqb (Py.lower p) (String (Py.lower_char c) (Py.lower s))
              || Py.endswith (Py.lower p) (Py.lower s)).
      rewrite (IH E). apply orb_true_r.
Qed.

Lemma pdf_suffix_contains (url : string) :
  Py.endswith ".pdf" url = true -> Py.contains ".pdf" (Py.lower url) = true.
Proof.
  intros E. apply PyFacts.contains_endswith. exact (endswith_lower ".pdf" url E).
Qed.

(** C3, amended. A candidate with an accepted title and a content, whose
    normalized URL ends in .pdf and has none of hotline, research, article
    and news in its lower case form, adds a FileResult with the title as
    extracted, without a content type prefix; and once a candidate of the
    containers has done so, the result is the list of the structured tier
    alone, so the last resort tier and its cap do not run. *)
Theorem pdf_candidate_is_file {element : Type} `{Host element}
    (x : item element) (title url content : string) :
  extract_title x = Some title ->
  extract_url x = Some url ->
  extract_content x = Some content ->
  Py.endswith ".pdf" url = true ->
  Py.contains "hotline" (Py.lower url) = false ->
  Py.contains "research" (Py.lower url) = false ->
  Py.contains "article" (Py.lower url) = false ->
  Py.contains "news" (Py.lower url) = false ->
  candidate x = Some (File url title content "files.html") /\
  forall text dom results,
    fromstring text = Some dom ->
    iter (containers dom) = Some results ->
    In x results ->
    In (File url title content "files.html") (response text) /\
    response text = structured_loop results [].
Proof.
  intros Ht Hu Hc Hpdf Hh Hr Ha Hn.
  assert (Hcand : candidate x = Some (File url title content "files.html")).
  { apply candidate_some. exists title, url, content. repeat split; auto.
    unfold classify. now rewrite Hh, Hr, Ha, Hn, (pdf_suffix_contains url Hpdf). }
  split; [exact Hcand|].
  intros text dom results Hp Hi Hx.
  assert (Hin : In (File url title content "files.html") (structured_loop results [])).
  { apply structured_loop_origin. now exists x. }
  unfold response, parse_document. rewrite Hp, Hi.
  destruct (structured_loop results []) as [|r0 l]; [destruct Hin|].
  split; [exact Hin | reflexivity].
Qed.

Lemma pdf_candidate_is_file_witness :
  candidate (H := Pages.reads Pages.plain_pdf_html Pages.plain_pdf_page)
    (IElem Pages.plain_pdf_card)
  = Some (File "https://www.nishithdesai.com/files/budget.pdf" "Annual Budget Review"
               "Annual Budget Review Read" "files.html").
Proof.
  exact (proj1 (pdf_candidate_is_file (H := Pages.reads Pages.plain_pdf_html Pages.plain_pdf_page)
                  (IElem Pages.plain_pdf_card)
                  "Annual Budget Review" "https://www.nishithdesai.com/files/budget.pdf"
                  "Annual Budget Review Read"
                  eq_refl eq_refl eq_refl eq_refl eq_refl eq_refl eq_refl eq_refl)).
Defined.

(** C3 as stated fails: the card that links /research/budget.pdf has a URL
    that ends in .pdf, and its record is a LinkResult with the prefix
    [Research Article]. *)
Lemma research_pdf_is_link :
  ~ (forall (element : Type) (H : Host element) (x : item element) (url : string) (r : record),
       extract_url x = Some url ->
       Py.endswith ".pdf" url = true ->
       candidate x = Some r ->
       is_file r = true).
Proof.
  intros C.
  specialize (C _ (Pages.reads Pages.research_pdf_html Pages.research_pdf_page)
                (IElem Pages.research_pdf_card)
                "https://www.nishithdesai.com/research/budget.pdf"
                (Link "https://www.nishithdesai.com/research/budget.pdf"
                      "[Research Article] Annual Budget Review" "Annual Budget Review Read")
                eq_refl eq_refl eq_refl).
  discriminate C.
Qed.


(** ** response: the title of a candidate *)

(** C4, amended. The title of a candidate is the first item, trimmed, of
    the first selector whose match is not empty, in the order h1, h2, h3,
    h4, a, strong, span of class title, div of class title; it is absent
    when no selector matches.  The title is rejected exactly when it is
    absent or has fewer than 5 code points; a candidate with a rejected
    title adds nothing and the loop goes on with the next candidate; a
    candidate with an accepted title adds nothing exactly when no URL is
    found or the content extraction raises. *)
Theorem title_priority_and_rejection {element : Type} `{Host element} (x : item element) :
  title_selectors =
    [ ".//h1/text()"; ".//h2/text()"; ".//h3/text()"; ".//h4/text()";
      ".//a/text()"; ".//strong/text()";
      text_of_classed "span" "title"; text_of_classed "div" "title" ] /\
  (title_text x = Some None <-> Forall (falsy x) title_selectors) /\
  (forall title, title_text x = Some (Some title) <->
     exists pre sel post s,
       title_selectors = pre ++ sel :: post /\ Forall (falsy x) pre /\
       truthy (eval_xpath x sel) = true /\
       index0 (eval_xpath x sel) = Some (IStr s) /\ title = Py.strip s) /\
  (forall title, title_rejected title = true <->
     title = None \/ exists t, title = Some t /\ String.length t < 5) /\
  (forall title, title_text x = Some title -> title_rejected title = true ->
     candidate x = None /\
     forall rest res, structured_loop (x :: rest) res = structured_loop rest res) /\
  (forall title, title_text x = Some (Some title) -> title_rejected (Some title) = false ->
     (candidate x = None <-> find_url x = None \/ raw_content x = None)).
Proof.
  split; [reflexivity|]. split; [|split; [|split; [|split]]].
  - rewrite <- select_first_none. unfold title_text.
    destruct (select_first x title_selectors) as [v|]; [|tauto].
    split; [|discriminate].
    destruct (index0 v) as [[e|s]|]; simpl; discriminate.
  - intros title. rewrite title_text_some. split.
    + intros (v & s & Hv & Hi & ->).
      apply select_first_some in Hv as (pre & sel & post & Hsel & Hpre & <- & Ht).
      now exists pre, sel, post, s.
    + intros (pre & sel & post & s & Hsel & Hpre & Ht & Hi & ->).
      exists (eval_xpath x sel), s. split; [|auto].
      apply select_first_some. now exists pre, sel, post.
  - intros [t|]; simpl.
    + split.
      * intros E. right. exists t. split; [reflexivity|].
        apply orb_true_iff in E as [E|E]; [|now apply Nat.ltb_lt].
        apply PyFacts.is_empty_length in E. lia.
      * intros [E|(t' & [= <-] & Hl)]; [discriminate|].
        apply Nat.ltb_lt in Hl. rewrite Hl. apply orb_true_r.
    + split; auto.
  - intros title Ht Hr.
    assert (Hc : candidate x = None).
    { unfold candidate, extract_title. rewrite Ht. simpl. now rewrite Hr. }
    split; [exact Hc|]. intros rest res. simpl. now rewrite Hc.
  - intros title Ht Hr.
    assert (He : extract_title x = Some title) by now apply extract_title_some.
    unfold candidate, extract_url, extract_content. rewrite He. simpl.
    destruct (find_url x) as [u|]; simpl; [|split; auto].
    destruct (raw_content x) as [c|]; simpl; [|split; auto].
    split; [discriminate | intros [?|?]; discriminate].
Qed.

(** C4 as stated fails: the card with a heading and no link has the title
    Annual Budget Review, which is not rejected, and yet adds nothing. *)
Lemma titled_card_without_link_skipped :
  ~ (forall (element : Type) (H : Host element) (x : item element),
       candidate x = None <->
       exists title, title_text x = Some title /\ title_rejected title = true).
Proof.
  intros C.
  destruct (proj1 (C _ (Pages.reads Pages.no_link_html Pages.no_link_page)
                     (IElem Pages.no_link_card)) eq_refl) as (title & Ht & Hr).
  vm_compute in Ht. injection Ht as <-. discriminate Hr.
Qed.

(** ** response: the content of a candidate *)

Lemma sub_ws_collapsed (in_run : bool) (s : string) :
  collapsed in_run (Py.sub_ws in_run s) = true.
Proof.
  revert in_run; induction s as [|c s IH]; intros in_run; simpl; [reflexivity|].
  destruct (Py.isspace c) eqn:Ec.
  - destruct in_run; [apply IH|].
    change (collapsed true (Py.sub_ws true s) = true). apply IH.
  - simpl. rewrite Ec. apply IH.
Qed.

Lemma mapM_item_strip {element : Type} (texts : list string) :
  mapM (item_strip (element := element)) (map IStr texts) = Some (map Py.strip texts).
Proof.
  induction texts as [|t texts IH]; [reflexivity|].
  simpl. simpl in IH. rewrite IH. reflexivity.
Qed.

Lemma firstn_nonempty_stripped (n : nat) (texts : list string) :
  Forall (fun t => Py.is_empty (Py.strip t) = false) (firstn n texts) ->
  nonempty_stripped (firstn n texts) = firstn n (nonempty_stripped texts).
Proof.
  unfold nonempty_stripped.
  revert texts; induction n as [|n IH]; intros [|t texts]; simpl; try reflexivity.
  intros HF. apply Forall_cons in HF as [Ht HF].
  rewrite Ht. simpl. now rewrite IH.
Qed.

(** C5, amended. When a content selector matches, with the texts [texts]
    of the first one that does, the content before the clean up is made of
    the first 3 of these texts: those of them that are not empty after
    trimming, trimmed and joined with a single space.  It is the first 3
    non-empty trimmed fragments when none of the first 3 texts is blank.
    The clean up then collapses the white space runs to single spaces. *)
Theorem snippet_of_first_three {element : Type} `{Host element}
    (x : item element) (texts : list string) :
  select_first x content_selectors = Some (XList (map IStr texts)) ->
  let raw := Py.join " " (nonempty_stripped (firstn 3 texts)) in
  raw_content x = Some raw /\
  (Forall (fun t => Py.is_empty (Py.strip t) = false) (firstn 3 texts) ->
     raw = first_three_nonempty texts) /\
  extract_content x = Some (truncate (Py.strip (Py.re_sub_ws raw))) /\
  collapsed false (Py.re_sub_ws raw) = true.
Proof.
  intros Hsel raw.
  assert (Hraw : raw_content x = Some raw).
  { unfold raw_content. rewrite Hsel. unfold first3, iter.
    change (Some (map IStr texts) ≫= (fun l => Some (firstn 3 l)))
      with (Some (firstn 3 (map (IStr (element := element)) texts))).
    rewrite firstn_map.
    change (Some (map IStr (firstn 3 texts)) ≫= _)
      with (mapM (item_strip (element := element)) (map IStr (firstn 3 texts)) ≫=
              (fun stripped => Some (Py.join " " (List.filter (fun t => negb (Py.is_empty t)) stripped)))).
    rewrite mapM_item_strip. reflexivity. }
  split; [exact Hraw|]. split; [|split].
  - intros HF. unfold raw, first_three_nonempty. now rewrite firstn_nonempty_stripped.
  - unfold extract_content. rewrite Hraw. reflexivity.
  - apply sub_ws_collapsed.
Qed.

Lemma snippet_of_first_three_witness :
  raw_content (H := Pages.reads Pages.blank_first_html Pages.blank_first_page)
    (IElem Pages.blank_first_card) = Some "First. Second.".
Proof.
  exact (proj1 (snippet_of_first_three
                  (H := Pages.reads Pages.blank_first_html Pages.blank_first_page)
                  (IElem Pages.blank_first_card)
                  [Pages.nbsp; "First."; "Second."; "Third."] eq_refl)).
Defined.

(** C5 as stated fails: the card whose first paragraph holds a no-break
    space has the paragraph texts of that space, First., Second. and
    Third.; the first 3 non-empty trimmed fragments are the three
    sentences, and the content is made of the first two only. *)
Lemma blank_paragraph_counts :
  ~ (forall (element : Type) (H : Host element) (x : item element) (texts : list string),
       select_first x content_selectors = Some (XList (map IStr texts)) ->
       raw_content x = Some (first_three_nonempty texts)).
Proof.
  intros C.
  specialize (C _ (Pages.reads Pages.blank_first_html Pages.blank_first_page)
                (IElem Pages.blank_first_card)
                [Pages.nbsp; "First."; "Second."; "Third."] eq_refl).
  vm_compute in C. discriminate C.
Qed.

(** * Further properties of the code *)

(** ** URL normalisation *)

Lemma http_not_root_relative (s : string) :
  Py.startswith "http" s = true -> Py.startswith "/" s = false.
Proof.
  destruct s as [|c s]; [discriminate|]. simpl.
  destruct (Ascii.eqb "h" c) eqn:E; [|discriminate].
  apply Ascii.eqb_eq in E. subst c. reflexivity.
Qed.

(** X1. Normalising a URL a second time changes nothing. *)
Theorem normalize_url_idempotent (url : string) :
  normalize_url (normalize_url url) = normalize_url url.
Proof.
  pose proof (normalize_url_http url) as Hh.
  unfold normalize_url at 1.
  now rewrite (http_not_root_relative _ Hh), Hh.
Qed.

(** X2. Normalisation only ever writes in front of the href: the href is
    the end of the normalised URL, and a href that begins with / is put
    right behind the base URL. *)
Theorem normalize_url_keeps_href (url : string) :
  Py.endswith url (normalize_url url) = true /\
  (Py.startswith "/" url = true -> normalize_url url = base_url +:+ url) /\
  (Py.startswith "/" url = false -> Py.startswith "http" url = false ->
     normalize_url url = base_url +:+ "/" +:+ url).
Proof.
  unfold normalize_url. split; [|split].
  - destruct (Py.startswith "/" url); [apply PyFacts.endswith_app|].
    destruct (Py.startswith "http" url); simpl negb; cbv match.
    + apply PyFacts.endswith_refl.
    + rewrite <- append_assoc. apply PyFacts.endswith_app.
  - now intros ->.
  - now intros -> ->.
Qed.

(** ** The tiers of response *)

Section TierFacts.

Context {element : Type} `{Host element}.

(** X3. The candidate containers are the matches of the first container
    selector, in the order of the list, that matches anything, whatever the
    later selectors match; when none matches they are the matches of the
    link selector. *)
Theorem containers_first_match (dom : element) :
  (forall pre sel post,
     result_selectors = pre ++ sel :: post ->
     Forall (falsy (IElem dom)) pre ->
     truthy (eval_xpath (IElem dom) sel) = true ->
     containers dom = eval_xpath (IElem dom) sel) /\
  (Forall (falsy (IElem dom)) result_selectors ->
     containers dom = eval_xpath (IElem dom) link_selector).
Proof.
  unfold containers. split.
  - intros pre sel post Hsel Hpre Ht.
    assert (E : select_first (IElem dom) result_selectors = Some (eval_xpath (IElem dom) sel)).
    { apply select_first_some. now exists pre, sel, post. }
    now rewrite E.
  - intros HF. apply select_first_none in HF. now rewrite HF.
Qed.

(** X4. When the structured tier accepts a candidate, the result is the
    list of the records of the accepted candidates, in the order of the
    containers and without a cap; a candidate that adds nothing does not
    stop the ones after it. *)
Theorem structured_tier_in_order (text : string) (dom : element)
    (results : list (item element)) :
  fromstring text = Some dom ->
  iter (containers dom) = Some results ->
  omap candidate results <> [] ->
  response text = omap candidate results /\
  length (response text) <= length results.
Proof.
  intros Hp Hi Hne.
  assert (E : response text = omap candidate results).
  { unfold response, parse_document. rewrite Hp, Hi, structured_loop_app. simpl.
    destruct (omap candidate results); [congruence | reflexivity]. }
  split; [exact E|]. rewrite E. clear.
  induction results as [|x results IH]; [simpl; lia|].
  change (omap candidate (x :: results))
    with (match candidate x with
          | Some r => r :: omap candidate results
          | None => omap candidate results
          end).
  destruct (candidate x); simpl length; lia.
Qed.

Lemma fallback_loop_firstn (links : list (item element)) (res : EngineResults) :
  length res < 10 ->
  fallback_loop links res = res ++ firstn (10 - length res) (omap fallback_link links).
Proof.
  revert res; induction links as [|x links IH]; intros res Hres.
  - simpl. now rewrite firstn_nil, app_nil_r.
  - rewrite fallback_loop_cons. simpl omap.
    destruct (fallback_link x) as [r|]; [|now apply IH].
    pose proof (length_add res r) as Hadd.
    replace (10 - length res) with (S (9 - length res)) by lia.
    rewrite firstn_cons.
    destruct (10 <=? length (add res r))%nat eqn:E.
    + apply Nat.leb_le in E. replace (9 - length res) with 0 by lia.
      reflexivity.
    + apply Nat.leb_gt in E. rewrite IH by lia. rewrite Hadd.
      unfold add. rewrite <- app_assoc. reflexivity.
Qed.

(** X5. The last resort tier, entered with an empty result list, returns
    the records of the first 10 links that pass its tests, in the order of
    the links. *)
Theorem last_resort_first_ten (dom : element) (all_links : list (item element)) :
  iter (eval_xpath (IElem dom) "//a[@href]") = Some all_links ->
  last_resort dom [] = firstn 10 (omap fallback_link all_links).
Proof.
  intros Hi. unfold last_resort. rewrite Hi.
  rewrite fallback_loop_firstn by (simpl; lia). reflexivity.
Qed.

End TierFacts.

Lemma structured_tier_in_order_witness :
  length (response (H := Pages.reads Cards.twelve_cards_html Cards.twelve_cards_page)
            Cards.twelve_cards_html) <= 12.
Proof.
  assert (Hne : omap (candidate (H := Pages.reads Cards.twelve_cards_html Cards.twelve_cards_page))
                  (map IElem Cards.twelve_cards) <> []).
  { vm_compute. discriminate. }
  exact (proj2 (structured_tier_in_order
                  (H := Pages.reads Cards.twelve_cards_html Cards.twelve_cards_page)
                  Cards.twelve_cards_html Cards.twelve_cards_page
                  (map IElem Cards.twelve_cards) eq_refl eq_refl Hne)).
Defined.

Example twelve_cards_uncapped :
  map record_url
    (response (H := Pages.reads Cards.twelve_cards_html Cards.twelve_cards_page)
       Cards.twelve_cards_html)
  = map (fun n => "https://www.nishithdesai.com/page/" +:+ Pages.number n) (seq 1 12).
Proof. vm_compute. reflexivity. Qed.

Lemma last_resort_first_ten_witness :
  length (last_resort (H := Pages.reads Pages.twelve_links_html Pages.twelve_links_page)
            Pages.twelve_links_page []) = 10.
Proof.
  rewrite (last_resort_first_ten
             (H := Pages.reads Pages.twelve_links_html Pages.twelve_links_page)
             Pages.twelve_links_page (map IElem Pages.twelve_links) eq_refl).
  reflexivity.
Defined.

(** ** The content type of a record *)

Lemma lower_append (a b : string) : Py.lower (a +:+ b) = Py.lower a +:+ Py.lower b.
Proof. induction a as [|c a IH]; simpl; [reflexivity | now rewrite IH]. Qed.

Lemma contains_startswith (sub s : string) :
  Py.startswith sub s = true -> Py.contains sub s = true.
Proof. intros E. destruct s; simpl; now rewrite E. Qed.

Lemma startswith_append (p s : string) : Py.startswith p (p +:+ s) = true.
Proof. induction p as [|c p IH]; simpl; [reflexivity|]. now rewrite Ascii.eqb_refl. Qed.

Lemma contains_middle (sub a b : string) : Py.contains sub (a +:+ sub +:+ b) = true.
Proof.
  induction a as [|c a IH].
  - change (Py.contains sub (sub +:+ b) = true).
    apply contains_startswith. apply startswith_append.
  - change (Py.contains sub (String c (a +:+ sub +:+ b)) = true).
    simpl. rewrite IH. apply orb_true_r.
Qed.

(** X6. The content type test does not look at the case of the URL, and
    hotline comes first: a URL that has the word hotline in it, in any mix
    of upper and lower case, gives a LinkResult tagged Legal Hotline,
    whatever else the URL holds. *)
Theorem hotline_any_case (url title content a w b : string) :
  url = a +:+ w +:+ b ->
  Py.lower w = "hotline" ->
  classify url title content = Link url ("[Legal Hotline] " +:+ title) content.
Proof.
  intros -> Hw. unfold classify.
  rewrite !lower_append, Hw, contains_middle. reflexivity.
Qed.

Lemma hotline_any_case_witness :
  classify "https://www.nishithdesai.com/HotLine/news.pdf" "Annual Budget Review" "Summary."
  = Link "https://www.nishithdesai.com/HotLine/news.pdf"
         "[Legal Hotline] Annual Budget Review" "Summary.".
Proof.
  exact (hotline_any_case "https://www.nishithdesai.com/HotLine/news.pdf"
           "Annual Budget Review" "Summary."
           "https://www.nishithdesai.com/" "HotLine" "/news.pdf" eq_refl eq_refl).
Defined.

(** X7. A record of a candidate is either a FileResult with the template
    files.html, the extracted title as it is and a URL that has .pdf in its
    lower case form, or a LinkResult whose title is the extracted title
    behind one of the four content type tags; the tag Legal Content is never
    given to a URL that has .pdf in it. *)
Theorem candidate_record_shape {element : Type} `{Host element}
    (x : item element) (r : record) :
  candidate x = Some r ->
  exists title url content,
    extract_title x = Some title /\ extract_url x = Some url /\
    extract_content x = Some content /\
    ((r = File url title content "files.html" /\
      Py.contains ".pdf" (Py.lower url) = true) \/
     (exists content_type,
        In content_type content_types /\
        r = Link url (formatted_title content_type title) content /\
        (content_type = "Legal Content" -> Py.contains ".pdf" (Py.lower url) = false))).
Proof.
  intros Hc. apply candidate_some in Hc as (t & u & c & Ht & Hu & Hcont & ->).
  exists t, u, c. repeat (split; [assumption|]).
  unfold classify, content_types.
  destruct (Py.contains "hotline" (Py.lower u)).
  { right. exists "Legal Hotline". simpl. split; [auto|]. split; [reflexivity | discriminate]. }
  destruct (Py.contains "research" (Py.lower u) || Py.contains "article" (Py.lower u)).
  { right. exists "Research Article". simpl. split; [auto|]. split; [reflexivity | discriminate]. }
  destruct (Py.contains "news" (Py.lower u)).
  { right. exists "News". simpl. split; [auto|]. split; [reflexivity | discriminate]. }
  destruct (Py.contains ".pdf" (Py.lower u)) eqn:Epdf.
  { left. auto. }
  right. exists "Legal Content". simpl. split; [auto 6|]. split; [reflexivity | reflexivity].
Qed.

Lemma candidate_record_shape_witness :
  exists title url content,
    extract_title (H := Pages.reads Pages.plain_pdf_html Pages.plain_pdf_page)
      (IElem Pages.plain_pdf_card) = Some title /\
    extract_url (H := Pages.reads Pages.plain_pdf_html Pages.plain_pdf_page)
      (IElem Pages.plain_pdf_card) = Some url /\
    extract_content (H := Pages.reads Pages.plain_pdf_html Pages.plain_pdf_page)
      (IElem Pages.plain_pdf_card) = Some content.
Proof.
  destruct (candidate_record_shape (H := Pages.reads Pages.plain_pdf_html Pages.plain_pdf_page)
              (IElem Pages.plain_pdf_card)
              (File "https://www.nishithdesai.com/files/budget.pdf" "Annual Budget Review"
                    "Annual Budget Review Read" "files.html") eq_refl)
    as (title & url & content & Ht & Hu & Hc & _).
  exists title, url, content. auto.
Defined.

(** ** The cleaned content *)

Lemma collapsed_weaken (s : string) : collapsed true s = true -> collapsed false s = true.
Proof.
  destruct s as [|c s]; simpl; [auto|].
  destruct (Py.isspace c); [|auto].
  rewrite andb_false_r. discriminate.
Qed.

Lemma collapsed_any (b : bool) (s : string) : collapsed true s = true -> collapsed b s = true.
Proof. destruct b; [auto | apply collapsed_weaken]. Qed.

Lemma collapsed_lstrip (b : bool) (s : string) :
  collapsed b s = true -> collapsed false (Py.lstrip s) = true.
Proof.
  revert b; induction s as [|c s IH]; intros b; simpl; [auto|].
  destruct (Py.isspace c) eqn:Ec.
  - intros E. apply andb_true_iff in E as [_ E]. exact (IH true E).
  - simpl. now rewrite Ec.
Qed.

Lemma collapsed_rstrip (b : bool) (s : string) :
  collapsed b s = true -> collapsed b (Py.rstrip s) = true.
Proof.
  revert b; induction s as [|c s IH]; intros b; simpl; [auto|].
  destruct (Py.isspace c) eqn:Ec.
  - intros E. apply andb_true_iff in E as [E1 E2].
    destruct (Py.is_empty (Py.rstrip s)); simpl; [reflexivity|].
    now rewrite Ec, E1, (IH true E2).
  - intros E. simpl. rewrite Ec. now apply IH.
Qed.

Lemma collapsed_take (n : nat) (b : bool) (s : string) :
  collapsed b s = true -> collapsed b (Py.take n s) = true.
Proof.
  revert b s; induction n as [|n IH]; intros b [|c s]; simpl; auto.
  destruct (Py.isspace c).
  - intros E. apply andb_true_iff in E as [E1 E2]. now rewrite E1, (IH true s E2).
  - apply IH.
Qed.

Lemma collapsed_app (b : bool) (s t : string) :
  collapsed b s = true -> collapsed true t = true -> collapsed b (s +:+ t) = true.
Proof.
  intros Hs Ht. revert b Hs; induction s as [|c s IH]; intros b; simpl.
  - intros _. now apply collapsed_any.
  - destruct (Py.isspace c).
    + intros E. apply andb_true_iff in E as [E1 E2]. now rewrite E1, (IH true E2).
    + apply IH.
Qed.

Lemma sub_ws_fixed (b : bool) (s : string) :
  collapsed b s = true -> Py.sub_ws b s = s.
Proof.
  revert b; induction s as [|c s IH]; intros b; simpl; [reflexivity|].
  destruct (Py.isspace c) eqn:Ec.
  - intros E. apply andb_true_iff in E as [E1 E2]. apply andb_true_iff in E1 as [E0 E1].
    destruct b; [discriminate|].
    apply Ascii.eqb_eq in E0. subst c. now rewrite (IH true E2).
  - intros E. now rewrite (IH false E).
Qed.

Lemma strip_head (s : string) (c : ascii) (r : string) :
  Py.strip s = String c r -> Py.isspace c = false.
Proof.
  unfold Py.strip. destruct (Py.lstrip s) as [|d t] eqn:E; [discriminate|].
  pose proof (PyFacts.lstrip_head _ _ _ E) as Hd.
  rewrite (PyFacts.rstrip_cons _ _ Hd). now intros [= <- _].
Qed.

Lemma truncate_trimmed (s : string) :
  Py.strip (truncate (Py.strip s)) = truncate (Py.strip s).
Proof.
  unfold truncate. destruct (300 <? String.length (Py.strip s))%nat eqn:E;
    [|apply PyFacts.strip_idem].
  destruct (Py.strip s) as [|c r] eqn:Es; [discriminate|].
  pose proof (strip_head _ _ _ Es) as Hc.
  change (Py.take 297 (String c r)) with (String c (Py.take 296 r)).
  exact (PyFacts.strip_prefixed c (Py.take 296 r) "..." Hc eq_refl).
Qed.

Lemma clean_content_shape (content : string) :
  Py.strip (clean_content content) = clean_content content /\
  collapsed false (clean_content content) = true.
Proof.
  unfold clean_content. split; [apply truncate_trimmed|].
  assert (Hs : collapsed false (Py.strip (Py.re_sub_ws content)) = true).
  { unfold Py.strip. apply collapsed_rstrip.
    apply (collapsed_lstrip false). apply sub_ws_collapsed. }
  unfold truncate. destruct (300 <? String.length (Py.strip (Py.re_sub_ws content)))%nat;
    [|exact Hs].
  apply collapsed_app; [now apply collapsed_take | reflexivity].
Qed.

(** X8. The cleaned content has no white space at either end, and its
    white space is collapsed: every white space code point in it is a space
    and no two of them are adjacent. *)
Theorem clean_content_normalized (content : string) :
  Py.strip (clean_content content) = clean_content content /\
  collapsed false (clean_content content) = true.
Proof. apply clean_content_shape. Qed.

(** X9. Cleaning a cleaned content changes nothing. *)
Theorem clean_content_idempotent (content : string) :
  clean_content (clean_content content) = clean_content content.
Proof.
  destruct (clean_content_shape content) as [Hstrip Hcol].
  unfold clean_content at 1. unfold Py.re_sub_ws.
  rewrite (sub_ws_fixed false _ Hcol), Hstrip.
  unfold truncate at 1.
  pose proof (truncate_length (Py.strip (Py.re_sub_ws content))) as Hl.
  fold (clean_content content) in Hl.
  apply Nat.ltb_ge in Hl. now rewrite Hl.
Qed.

(** ** request *)

Lemma append_inj_l (a x y : string) : a +:+ x = a +:+ y -> x = y.
Proof. induction a as [|c a IH]; simpl; [auto|]. intros [= E]. auto. Qed.

Lemma str_of_int_inj (n m : Z) : Py.str_of_int n = Py.str_of_int m -> n = m.
Proof.
  intros E. pose proof (UrlFacts.int_of_str_of_int n) as Hn.
  rewrite E, UrlFacts.int_of_str_of_int in Hn. congruence.
Qed.


Lemma query_char_printable (c : ascii) : Url.query_char c = true -> printable_ascii c = true.
Proof. UrlFacts.each_byte c; vm_compute; congruence. Qed.


(** ** Edge cases of a candidate *)

Section CandidateEdges.

Context {element : Type} `{Host element}.

Lemma select_first_head (x : item element) (sel : string) (rest : list string)
    (v : xvalue element) :
  eval_xpath x sel = v -> truthy v = true -> select_first x (sel :: rest) = Some v.
Proof. intros <- Ht. simpl. now rewrite Ht. Qed.

Lemma skipped_candidate_passes (x : item element) :
  candidate x = None ->
  forall rest res, structured_loop (x :: rest) res = structured_loop rest res.
Proof. intros Hc rest res. simpl. now rewrite Hc. Qed.

(** X12. Only the first href found counts: a candidate whose first anchor
    has an empty href adds nothing, whatever the hrefs of its other
    anchors, and the loop goes on with the next candidate. *)
Theorem empty_first_href_skips (x : item element) (others : list (item element)) :
  eval_xpath x ".//a/@href" = XList (IStr EmptyString :: others) ->
  candidate x = None /\
  forall rest res, structured_loop (x :: rest) res = structured_loop rest res.
Proof.
  intros Hx.
  assert (Hu : extract_url x = None).
  { unfold extract_url, find_url, url_selectors.
    rewrite (select_first_head x _ _ _ Hx eq_refl). reflexivity. }
  assert (Hc : candidate x = None).
  { unfold candidate. destruct (extract_title x); simpl; [|reflexivity].
    now rewrite Hu. }
  split; [exact Hc | now apply skipped_candidate_passes].
Qed.


Lemma blank_fragments_dropped (texts : list string) :
  Forall (fun t => Py.is_empty (Py.strip t) = true) texts ->
  nonempty_stripped texts = [].
Proof.
  unfold nonempty_stripped. induction texts as [|t texts IH]; [reflexivity|].
  intros HF. apply Forall_cons in HF as [Ht HF]. simpl. rewrite Ht. simpl. now apply IH.
Qed.

(** X14. The first content selector that matches is taken even when its
    texts are blank: a candidate whose paragraphs match and whose first 3
    paragraph texts are empty after trimming has the empty content, whatever
    the later content selectors would match. *)
Theorem blank_paragraphs_empty_content (x : item element) (texts : list string) :
  eval_xpath x ".//p/text()" = XList (map IStr texts) ->
  texts <> [] ->
  Forall (fun t => Py.is_empty (Py.strip t) = true) (firstn 3 texts) ->
  extract_content x = Some EmptyString.
Proof.
  intros Hx Hne HF.
  assert (Ht : truthy (XList (map (IStr (element := element)) texts)) = true).
  { destruct texts; [congruence | reflexivity]. }
  unfold extract_content, raw_content, content_selectors.
  rewrite (select_first_head x _ _ _ Hx Ht).
  unfold first3, iter.
  change (Some (map IStr texts) ≫= (fun l => Some (firstn 3 l)))
    with (Some (firstn 3 (map (IStr (element := element)) texts))).
  rewrite firstn_map.
  change (Some (map IStr (firstn 3 texts)) ≫= _)
    with (mapM (item_strip (element := element)) (map IStr (firstn 3 texts)) ≫=
            (fun stripped => Some (Py.join " " (List.filter (fun t => negb (Py.is_empty t)) stripped)))).
  rewrite mapM_item_strip.
  change (Some (map Py.strip (firstn 3 texts)) ≫= _)
    with (Some (Py.join " " (nonempty_stripped (firstn 3 texts)))).
  rewrite (blank_fragments_dropped _ HF). reflexivity.
Qed.

End CandidateEdges.

Lemma empty_first_href_skips_witness :
  candidate (H := Pages.reads Cards.empty_href_html Cards.empty_href_page)
    (IElem Cards.empty_href_card) = None.
Proof.
  exact (proj1 (empty_first_href_skips
                  (H := Pages.reads Cards.empty_href_html Cards.empty_href_page)
                  (IElem Cards.empty_href_card) [IStr "/budget.html"] eq_refl)).
Defined.


Lemma blank_paragraphs_empty_content_witness :
  extract_content (H := Pages.reads Cards.blank_paragraph_html Cards.blank_paragraph_page)
    (IElem Cards.blank_paragraph_card) = Some EmptyString.
Proof.
  apply (blank_paragraphs_empty_content
           (H := Pages.reads Cards.blank_paragraph_html Cards.blank_paragraph_page)
           (IElem Cards.blank_paragraph_card) [Pages.nbsp]).
  - reflexivity.
  - discriminate.
  - repeat constructor.
Defined.

Example blank_paragraph_record :
  response (H := Pages.reads Cards.blank_paragraph_html Cards.blank_paragraph_page)
    Cards.blank_paragraph_html
  = [ Link "https://www.nishithdesai.com/budget.html" "[Legal Content] Annual Budget Review"
           EmptyString ].
Proof. reflexivity. Qed.

(** ** fetch_traits once more *)

(** X15. [fetch_traits] overwrites: whatever locale, English language name
    and names of the regions IN and US a traits object holds before the
    call, the traits after the call are the same. *)
Theorem fetch_traits_overwrites (t : EngineTraits) (locale : option string)
    (english india us : string) :
  fetch_traits
    {| all_locale := locale;
       languages := <["en" := english]> (languages t);
       regions := <["IN" := india]> (<["US" := us]> (regions t)) |}
  = fetch_traits t.
Proof.
  unfold fetch_traits; simpl. f_equal.
  - apply insert_insert_eq.
  - apply map_eq; intros k.
    destruct (decide (k = "US")) as [->|HU]; [now rewrite !lookup_insert_eq|].
    rewrite !(lookup_insert_ne _ "US") by congruence.
    destruct (decide (k = "IN")) as [->|HI]; [now rewrite !lookup_insert_eq|].
    rewrite !(lookup_insert_ne _ "IN") by congruence.
    now rewrite !lookup_insert_ne by congruence.
Qed.
